(** * REV2 frontend: the API client, the page view state and the
      presentational components, embedded from the TypeScript sources.

    Layout of the development:
    - [Js]            the fragment of JavaScript the sources rely on
                      (truthiness, number printing, [URLSearchParams]);
    - [Api]           [lib/api.ts]: entities and the requests each call issues;
    - [MetricCard], [ReviewsTable]   the two presentational components;
    - [Query]         what a page sees of a [useQuery] result;
    - [Dashboard], [ReviewsPage], [AnalyticsPage], [SettingsPage]  the pages;
    - [Layout]        the navigation shell;
    - the theorems, one block per property of the specification, then
      further properties of the client and the pages. *)

From Stdlib Require Import ZArith String Ascii List Bool Lia DecimalString.
From Stdlib Require Import DecimalPos DecimalZ.
Import ListNotations.

Local Open Scope string_scope.
Local Open Scope Z_scope.

(* ================================================================== *)
(** ** JavaScript values used by the sources *)

Module Js.

(** A JavaScript [number], by what the sources do with one: test it,
    compare it with zero, take its absolute value and print it.

    - [Int z] is the integral value [z], for [|z| < 10^21]; it prints in
      plain decimal.
    - [Finite negative first rest] is any other finite value: a value
      with a fractional part (a trend of [-2.5], a rate of [97.25]) or a
      magnitude from [10^21] on.  It is given by its sign and by the
      text JavaScript prints for its magnitude ([2.5], [1e+21],
      [1.5e-7]), [first] being the first character of that text: the
      language prints a negative number as [-] followed by the text of
      its magnitude, and the text determines the number.
    - [NaN] and the two infinities.

    [proper] tells the values that stand for a number. *)
Inductive number : Type :=
| NaN
| Infinity (negative : bool)
| Int (z : Z)
| Finite (negative : bool) (first : ascii) (rest : string).

(** The text of the magnitude of a [Finite]. *)
Definition magnitude (first : ascii) (rest : string) : string :=
  String first rest.







(** [if (n)] on a number: [0] and [NaN] are falsy. *)
Definition number_truthy (n : number) : bool :=
  match n with
  | NaN => false
  | Infinity _ => true
  | Int z => negb (z =? 0)
  | Finite _ _ _ => true
  end.

(** [if (s)] on a string: only the empty string is falsy. *)
Definition string_truthy (s : string) : bool :=
  match s with
  | EmptyString => false
  | String _ _ => true
  end.

(** [n.toString()] and the conversion done by a template literal. *)
Definition number_toString (n : number) : string :=
  match n with
  | NaN => "NaN"
  | Infinity false => "Infinity"
  | Infinity true => "-Infinity"
  | Int z => NilZero.string_of_int (Z.to_int z)
  | Finite false first rest => magnitude first rest
  | Finite true first rest => String "-" (magnitude first rest)
  end.

Definition Math_abs (n : number) : number :=
  match n with
  | NaN => NaN
  | Infinity _ => Infinity false
  | Int z => Int (Z.abs z)
  | Finite _ first rest => Finite false first rest
  end.

(** [n <= 0]; a comparison with [NaN] is false. *)
Definition le_zero (n : number) : bool :=
  match n with
  | NaN => false
  | Infinity negative => negative
  | Int z => z <=? 0
  | Finite negative _ _ => negative
  end.

(** [n >= 0]. *)
Definition ge_zero (n : number) : bool :=
  match n with
  | NaN => false
  | Infinity negative => negb negative
  | Int z => 0 <=? z
  | Finite negative _ _ => negb negative
  end.

(** *** [URLSearchParams] *)

(** An ordered list of name/value pairs; duplicates are allowed. *)
Definition URLSearchParams : Type := list (string * string).

Definition new_URLSearchParams : URLSearchParams := [].

Definition append (name value : string) (ps : URLSearchParams)
  : URLSearchParams :=
  (ps ++ [(name, value)])%list.

(** [params.has(name)]. *)
Definition has (name : string) (ps : URLSearchParams) : bool :=
  existsb (fun kv => fst kv =? name)%string ps.

(** [params.get(name)]: the first value stored under [name]. *)
Definition get (name : string) (ps : URLSearchParams) : option string :=
  match find (fun kv => fst kv =? name)%string ps with
  | Some kv => Some (snd kv)
  | None => None
  end.

(** The application/x-www-form-urlencoded serializer behind
    [params.toString()], on the UTF-8 bytes of the string. *)
Definition hex_digit (n : N) : ascii :=
  match n with
  | 0%N => "0" | 1%N => "1" | 2%N => "2" | 3%N => "3"
  | 4%N => "4" | 5%N => "5" | 6%N => "6" | 7%N => "7"
  | 8%N => "8" | 9%N => "9" | 10%N => "A" | 11%N => "B"
  | 12%N => "C" | 13%N => "D" | 14%N => "E" | _ => "F"
  end%char.

Definition unreserved (c : ascii) : bool :=
  let n := N_of_ascii c in
  ((48 <=? n) && (n <=? 57) || (65 <=? n) && (n <=? 90)
   || (97 <=? n) && (n <=? 122)
   || (n =? 42) || (n =? 45) || (n =? 46) || (n =? 95))%N.

Fixpoint urlencode (s : string) : string :=
  match s with
  | EmptyString => EmptyString
  | String c rest =>
      if unreserved c then String c (urlencode rest)
      else if (c =? " ")%char then String "+" (urlencode rest)
      else
        let n := N_of_ascii c in
        String "%" (String (hex_digit (n / 16)) (String (hex_digit (n mod 16))
                                                   (urlencode rest)))
  end.

Fixpoint URLSearchParams_toString (ps : URLSearchParams) : string :=
  match ps with
  | [] => ""
  | [(k, v)] => urlencode k ++ "=" ++ urlencode v
  | (k, v) :: rest =>
      urlencode k ++ "=" ++ urlencode v ++ "&" ++ URLSearchParams_toString rest
  end.

End Js.

(* ================================================================== *)
(** ** [lib/api.ts]: entities and requests *)

Module Api.

Record Review : Type := {
  id : string;
  installation_id : string;
  repo_name : string;
  pr_number : Js.number;
  pr_url : string;
  commit_sha : string;
  files_reviewed : Js.number;
  (** declared as a three-valued union, but decoded from JSON unchecked *)
  review_status : string;
  total_comments : Js.number;
  api_latency_ms : Js.number;
  cache_hit : bool;
  error_message : option string;
  created_at : string;
  updated_at : string
}.

Record Metrics : Type := {
  total_reviews : Js.number;
  success_rate : Js.number;
  avg_latency_ms : Js.number;
  cache_hit_rate : Js.number;
  review_trend : Js.number;
  latency_trend : Js.number;
  cache_trend : Js.number;
  success_trend : Js.number
}.

Record Settings : Type := {
  default_model : option string;
  max_files_per_review : option Js.number;
  max_lines_per_file : option Js.number;
  enable_caching : option bool;
  enable_parallel_processing : option bool;
  enable_batch_processing : option bool;
  rate_limit_per_hour : option Js.number;
  request_timeout_seconds : option Js.number
}.

Inductive TimeRange : Type := range_24h | range_7d | range_30d.

Definition TimeRange_toString (t : TimeRange) : string :=
  match t with
  | range_24h => "24h"
  | range_7d => "7d"
  | range_30d => "30d"
  end.

Inductive ExportFormat : Type := csv | json.

Definition ExportFormat_toString (f : ExportFormat) : string :=
  match f with
  | csv => "csv"
  | json => "json"
  end.

(** What a call hands to the axios client. *)
Inductive Request : Type :=
| GET (url : string) (params : Js.URLSearchParams)
| PUT (url : string) (body : Settings).

(** The [options] argument of [getReviews]; every field is optional. *)
Record ReviewsOptions : Type := {
  search : option string;
  status : option string;
  sort_by : option string;
  page : option Js.number;
  limit : option Js.number
}.

Definition no_options : ReviewsOptions :=
  {| search := None; status := None; sort_by := None;
     page := None; limit := None |}.

(** [if (options?.field) params.append(name, options.field)] for a
    string field. *)
Definition append_string (name : string) (field : option string)
    (ps : Js.URLSearchParams) : Js.URLSearchParams :=
  match field with
  | Some s => if Js.string_truthy s then Js.append name s ps else ps
  | None => ps
  end.

(** The same for a number field, appended as [field.toString()]. *)
Definition append_number (name : string) (field : option Js.number)
    (ps : Js.URLSearchParams) : Js.URLSearchParams :=
  match field with
  | Some n =>
      if Js.number_truthy n then Js.append name (Js.number_toString n) ps
      else ps
  | None => ps
  end.

(** The [params] object built by [getReviews]; [options] itself may be
    missing. *)
Definition getReviews_params (options : option ReviewsOptions)
  : Js.URLSearchParams :=
  let o := match options with Some o => o | None => no_options end in
  let params := Js.new_URLSearchParams in
  let params := append_string "search" (search o) params in
  let params := append_string "status" (status o) params in
  let params := append_string "sort_by" (sort_by o) params in
  let params := append_number "page" (page o) params in
  let params := append_number "limit" (limit o) params in
  params.

Definition getReviews (options : option ReviewsOptions) : Request :=
  let params := getReviews_params options in
  GET ("/reviews?" ++ Js.URLSearchParams_toString params) [].


Definition getAnalytics (timeRange : option TimeRange) : Request :=
  let timeRange := match timeRange with Some t => t | None => range_7d end in
  GET "/analytics" [("time_range", TimeRange_toString timeRange)].

Definition getSettings : Request := GET "/settings" [].

Definition updateSettings (settings : Settings) : Request :=
  PUT "/settings" settings.

Record ExportOptions : Type := {
  format : ExportFormat;
  export_status : option string
}.

Definition exportReviews_params (options : ExportOptions)
  : Js.URLSearchParams :=
  let params := Js.new_URLSearchParams in
  let params :=
    append_string "format" (Some (ExportFormat_toString (format options)))
      params in
  let params := append_string "status" (export_status options) params in
  params.

Definition exportReviews (options : ExportOptions) : Request :=
  let params := exportReviews_params options in
  GET ("/reviews/export?" ++ Js.URLSearchParams_toString params) [].

End Api.

(* ================================================================== *)
(** ** Shared vocabulary of the components *)

Module Lucide.
(** The icon components imported from [lucide-react]. *)
Inductive Icon : Type :=
| CheckCircle | AlertCircle | XCircle | ExternalLink
| TrendingUp | Clock | AlertTriangle | BarChart3.
End Lucide.

Module Sonner.
(** A call to [toast.success] or [toast.error]. *)
Inductive Toast : Type :=
| success (message : string)
| error (message : string).
End Sonner.

Module Query.
(** What a component destructures from [useQuery]: [error] is kept as
    its truthiness, which is all the pages test. *)
Record Result (A : Type) : Type := {
  data : option A;
  isLoading : bool;
  error : bool
}.
Arguments data {A} _.
Arguments isLoading {A} _.
Arguments error {A} _.

(** The one action a page binds to a query: [refetch()]. *)
Inductive Action : Type := refetch.
End Query.

(* ================================================================== *)
(** ** [components/MetricCard.tsx] *)

Module MetricCard.

Record Props : Type := {
  title : string;
  value : string;                (* a number is rendered by its toString *)
  change : option string;
  positive : option bool;
  icon : Lucide.Icon;
  description : option string
}.

(** The change line under the value: its class list and its text. *)
Record Indicator : Type := {
  className : string;
  text : string
}.

Record Card : Type := {
  card_title : string;
  card_value : string;
  card_description : option string;
  card_indicator : option Indicator;
  card_icon : Lucide.Icon
}.

(** An optional boolean prop used as a condition. *)
Definition truthy (b : option bool) : bool :=
  match b with Some true => true | _ => false end.

Definition render (p : Props) : Card :=
  {| card_title := title p;
     card_value := value p;
     card_description :=
       match description p with
       | Some d => if Js.string_truthy d then Some d else None
       | None => None
       end;
     card_indicator :=
       match change p with
       | Some c =>
           if Js.string_truthy c then
             Some {| className :=
                       "text-xs font-medium mt-2 " ++
                       (if truthy (positive p) then "text-success-600"
                        else "text-danger-600");
                     text :=
                       (if truthy (positive p) then "↑" else "↓")
                       ++ " " ++ c |}
           else None
       | None => None
       end;
     card_icon := icon p |}.

End MetricCard.

(* ================================================================== *)
(** ** [components/ReviewsTable.tsx] *)

Module ReviewsTable.

Record IconElement : Type := {
  component : Lucide.Icon;
  icon_className : string
}.

Definition getStatusIcon (status : string) : option IconElement :=
  if (status =? "success")%string then
    Some {| component := Lucide.CheckCircle;
            icon_className := "w-5 h-5 text-success-600" |}
  else if (status =? "partial_failure")%string then
    Some {| component := Lucide.AlertCircle;
            icon_className := "w-5 h-5 text-warning-600" |}
  else if (status =? "failure")%string then
    Some {| component := Lucide.XCircle;
            icon_className := "w-5 h-5 text-danger-600" |}
  else None.

Definition getStatusBadge (status : string) : string :=
  if (status =? "success")%string then "bg-success-100 text-success-800"
  else if (status =? "partial_failure")%string then
    "bg-warning-100 text-warning-800"
  else if (status =? "failure")%string then "bg-danger-100 text-danger-800"
  else "bg-gray-100 text-gray-800".

(** [s.replace('_', ' ')]: only the first underscore is replaced. *)
Fixpoint replace_first_underscore (s : string) : string :=
  match s with
  | EmptyString => EmptyString
  | String c rest =>
      if (c =? "_")%char then String " " rest
      else String c (replace_first_underscore rest)
  end.

(** A call [format(new Date(timestamp), pattern)] of date-fns, kept as
    the call it is: the library is outside the sources, the text it
    returns depends on the time zone, and on a timestamp that does not
    parse it raises a RangeError instead of returning. *)
Record FormatCall : Type := {
  timestamp : string;
  pattern : string
}.

(** One table row as the component writes it; the date cell is the call
    to date-fns, still to be evaluated when the row is drawn. *)
Record Row : Type := {
  key : string;
  repository : string;
  pr : string;
  status_icon : option IconElement;
  status_badge : string;
  status_label : string;
  files : string;
  latency : string;
  date : FormatCall;
  action_href : string
}.

Definition row (review : Api.Review) : Row :=
  {| key := Api.id review;
     repository := Api.repo_name review;
     pr := "#" ++ Js.number_toString (Api.pr_number review);
     status_icon := getStatusIcon (Api.review_status review);
     status_badge :=
       "px-2 py-1 text-xs font-medium rounded "
       ++ getStatusBadge (Api.review_status review);
     status_label := replace_first_underscore (Api.review_status review);
     files := Js.number_toString (Api.files_reviewed review);
     latency := Js.number_toString (Api.api_latency_ms review) ++ "ms";
     date := {| timestamp := Api.created_at review;
                pattern := "MMM d, HH:mm" |};
     action_href := Api.pr_url review |}.

Inductive View : Type :=
| Skeleton (bars : nat)
| Placeholder (message : string)
| Table (rows : list Row).

(** The component; [loading] is an optional prop defaulting to false.
    A [Table] is the element the component writes: drawing it evaluates
    the date call of each row. *)
Definition render (reviews : list Api.Review) (loading : option bool)
  : View :=
  let loading := match loading with Some b => b | None => false end in
  if loading then Skeleton 5
  else if (List.length reviews =? 0)%nat then Placeholder "No reviews found"
  else Table (map row reviews).

End ReviewsTable.

(* ================================================================== *)
(** ** What a page returns *)

Module Screen.
(** A page either returns early with an error panel (optionally with a
    button bound to a query action) or renders its content. *)
Inductive t (Content : Type) : Type :=
| ErrorState (message : string) (button : option (string * Query.Action))
| Page (content : Content).
Arguments ErrorState {Content} _ _.
Arguments Page {Content} _.

Definition is_error_state {C : Type} (s : t C) : bool :=
  match s with ErrorState _ _ => true | Page _ => false end.

Definition retry_action {C : Type} (s : t C) : option Query.Action :=
  match s with
  | ErrorState _ (Some (_, a)) => Some a
  | _ => None
  end.
End Screen.

(* ================================================================== *)
(** ** [pages/index.tsx]: the dashboard *)

Module Dashboard.

Definition initial_timeRange : Api.TimeRange := Api.range_24h.


Definition reviews_queryFn : Api.Request :=
  Api.getReviews
    (Some {| Api.search := None; Api.status := None; Api.sort_by := None;
             Api.page := None; Api.limit := Some (Js.Int 10) |}).

(** The two [useEffect] bodies, run when the error they depend on
    changes. *)
Definition metricsError_effect (metricsError : bool) : list Sonner.Toast :=
  if metricsError then [Sonner.error "Failed to load metrics"] else [].

Definition reviewsError_effect (reviewsError : bool) : list Sonner.Toast :=
  if reviewsError then [Sonner.error "Failed to load reviews"] else [].

Definition effects (metrics : Query.Result Api.Metrics)
    (reviews : Query.Result (list Api.Review)) : list Sonner.Toast :=
  (metricsError_effect (Query.error metrics)
   ++ reviewsError_effect (Query.error reviews))%list.

Definition totalReviewsCard (metrics : Api.Metrics) : MetricCard.Props :=
  {| MetricCard.title := "Total Reviews";
     MetricCard.value := Js.number_toString (Api.total_reviews metrics);
     MetricCard.change :=
       Some (Js.number_toString (Api.review_trend metrics) ++ "%");
     MetricCard.icon := Lucide.TrendingUp;
     MetricCard.positive :=
       Some (Js.ge_zero (Api.review_trend metrics));
     MetricCard.description := None |}.

Definition avgLatencyCard (metrics : Api.Metrics) : MetricCard.Props :=
  {| MetricCard.title := "Avg Latency";
     MetricCard.value :=
       Js.number_toString (Api.avg_latency_ms metrics) ++ "ms";
     MetricCard.change :=
       Some (Js.number_toString (Js.Math_abs (Api.latency_trend metrics))
             ++ "%");
     MetricCard.icon := Lucide.Clock;
     MetricCard.positive :=
       Some (Js.le_zero (Api.latency_trend metrics));
     MetricCard.description := None |}.

Definition cacheHitRateCard (metrics : Api.Metrics) : MetricCard.Props :=
  {| MetricCard.title := "Cache Hit Rate";
     MetricCard.value :=
       Js.number_toString (Api.cache_hit_rate metrics) ++ "%";
     MetricCard.change :=
       Some (Js.number_toString (Api.cache_trend metrics) ++ "%");
     MetricCard.icon := Lucide.TrendingUp;
     MetricCard.positive :=
       Some (Js.ge_zero (Api.cache_trend metrics));
     MetricCard.description := None |}.

Definition successRateCard (metrics : Api.Metrics) : MetricCard.Props :=
  {| MetricCard.title := "Success Rate";
     MetricCard.value :=
       Js.number_toString (Api.success_rate metrics) ++ "%";
     MetricCard.change :=
       Some (Js.number_toString (Api.success_trend metrics) ++ "%");
     MetricCard.icon := Lucide.TrendingUp;
     MetricCard.positive :=
       Some (Js.ge_zero (Api.success_trend metrics));
     MetricCard.description := None |}.

Inductive MetricsSection : Type :=
| MetricsSkeleton (cards : nat)
| MetricsCards (cards : list MetricCard.Card)
| MetricsNothing.

Record Content : Type := {
  metrics_section : MetricsSection;
  recent_reviews : ReviewsTable.View;
  no_reviews_yet : bool
}.

Definition reviews_or_empty (data : option (list Api.Review))
  : list Api.Review :=
  match data with Some l => l | None => [] end.

(** The component never returns early: it has no error branch. *)
Definition render (metrics : Query.Result Api.Metrics)
    (reviews : Query.Result (list Api.Review)) : Screen.t Content :=
  Screen.Page
    {| metrics_section :=
         if Query.isLoading metrics then MetricsSkeleton 4
         else match Query.data metrics with
              | Some m =>
                  MetricsCards
                    (map MetricCard.render
                       [totalReviewsCard m; avgLatencyCard m;
                        cacheHitRateCard m; successRateCard m])
              | None => MetricsNothing
              end;
       recent_reviews :=
         ReviewsTable.render (reviews_or_empty (Query.data reviews))
           (Some (Query.isLoading reviews));
       no_reviews_yet :=
         negb (Query.isLoading reviews)
         && match Query.data reviews with
            | None => true
            | Some l => (List.length l =? 0)%nat
            end |}.

End Dashboard.

(* ================================================================== *)
(** ** [pages/analytics.tsx] *)

Module AnalyticsPage.

Record ModelPerformance : Type := {
  model_name : string;
  usage_count : Js.number;
  model_avg_latency_ms : Js.number;
  model_success_rate : Js.number;
  avg_cost_usd : Js.number
}.

Record Repository : Type := {
  repo_name : string;
  review_count : Js.number;
  repo_avg_latency_ms : Js.number;
  repo_success_rate : Js.number
}.

Record Analytics : Type := {
  total_api_calls : Js.number;
  api_calls_trend : Js.number;
  avg_response_time_ms : Js.number;
  response_time_trend : Js.number;
  error_rate : Js.number;
  error_rate_trend : Js.number;
  model_performance : list ModelPerformance;
  top_repositories : list Repository;
  cache_hits : Js.number;
  cache_misses : Js.number;
  rate_limited_requests : Js.number;
  total_cost_usd : Js.number
}.

Definition initial_timeRange : Api.TimeRange := Api.range_7d.

Definition queryFn (timeRange : Api.TimeRange) : Api.Request :=
  Api.getAnalytics (Some timeRange).

(** The [useEffect] on [error]. *)
Definition effects (analytics : Query.Result Analytics)
  : list Sonner.Toast :=
  if Query.error analytics then [Sonner.error "Failed to load analytics"]
  else [].

Definition totalApiCallsCard (a : Analytics) : MetricCard.Props :=
  {| MetricCard.title := "Total API Calls";
     MetricCard.value := Js.number_toString (total_api_calls a);
     MetricCard.change :=
       Some (Js.number_toString (api_calls_trend a) ++ "%");
     MetricCard.icon := Lucide.TrendingUp;
     MetricCard.positive := Some (Js.ge_zero (api_calls_trend a));
     MetricCard.description := None |}.

Definition avgResponseTimeCard (a : Analytics) : MetricCard.Props :=
  {| MetricCard.title := "Avg Response Time";
     MetricCard.value := Js.number_toString (avg_response_time_ms a) ++ "ms";
     MetricCard.change :=
       Some (Js.number_toString (Js.Math_abs (response_time_trend a)) ++ "%");
     MetricCard.icon := Lucide.TrendingUp;
     MetricCard.positive := Some (Js.le_zero (response_time_trend a));
     MetricCard.description := None |}.

Definition errorRateCard (a : Analytics) : MetricCard.Props :=
  {| MetricCard.title := "Error Rate";
     MetricCard.value := Js.number_toString (error_rate a) ++ "%";
     MetricCard.change :=
       Some (Js.number_toString (Js.Math_abs (error_rate_trend a)) ++ "%");
     MetricCard.icon := Lucide.AlertTriangle;
     MetricCard.positive := Some (Js.le_zero (error_rate_trend a));
     MetricCard.description := None |}.

(** The three top cards, then the sections that list the data as it is. *)
Inductive Content : Type :=
| AnalyticsSkeleton (cards : nat)
| AnalyticsData (cards : list MetricCard.Card) (shown : Analytics)
| AnalyticsNothing.

(** No error branch here either. *)
Definition render (analytics : Query.Result Analytics) : Screen.t Content :=
  Screen.Page
    (if Query.isLoading analytics then AnalyticsSkeleton 3
     else match Query.data analytics with
          | Some a =>
              AnalyticsData
                (map MetricCard.render
                   [totalApiCallsCard a; avgResponseTimeCard a;
                    errorRateCard a])
                a
          | None => AnalyticsNothing
          end).

End AnalyticsPage.

(* ================================================================== *)
(** ** [pages/reviews.tsx] *)

Module ReviewsPage.

(** The values of the status select. *)
Inductive StatusFilter : Type := all | success | partial_failure | failure.

Definition StatusFilter_toString (f : StatusFilter) : string :=
  match f with
  | all => "all"
  | success => "success"
  | partial_failure => "partial_failure"
  | failure => "failure"
  end.

(** [statusFilter === 'all'] *)
Definition is_all (f : StatusFilter) : bool :=
  match f with all => true | _ => false end.

(** The values of the sort select. *)
Inductive SortKey : Type := date | latency | comments.

Definition SortKey_toString (k : SortKey) : string :=
  match k with
  | date => "date"
  | latency => "latency"
  | comments => "comments"
  end.

(** The four [useState] cells.  The page number is a counter that
    starts at 1 and moves by whole steps. *)
Record State : Type := {
  searchQuery : string;
  statusFilter : StatusFilter;
  sortBy : SortKey;
  page : Z
}.

Definition initial : State :=
  {| searchQuery := ""; statusFilter := all; sortBy := date; page := 1 |}.

Definition setSearchQuery (v : string) (st : State) : State :=
  {| searchQuery := v; statusFilter := statusFilter st;
     sortBy := sortBy st; page := page st |}.

Definition setStatusFilter (v : StatusFilter) (st : State) : State :=
  {| searchQuery := searchQuery st; statusFilter := v;
     sortBy := sortBy st; page := page st |}.

Definition setSortBy (v : SortKey) (st : State) : State :=
  {| searchQuery := searchQuery st; statusFilter := statusFilter st;
     sortBy := v; page := page st |}.

(** [setPage] with an updater function; [setPage(1)] is [setPage (fun _ => 1)]. *)
Definition setPage (f : Z -> Z) (st : State) : State :=
  {| searchQuery := searchQuery st; statusFilter := statusFilter st;
     sortBy := sortBy st; page := f (page st) |}.

(** *** The fetch *)

Definition queryKey (st : State) : string * string * string * string * Z :=
  ("reviews", searchQuery st, StatusFilter_toString (statusFilter st),
   SortKey_toString (sortBy st), page st).

Definition query_options (st : State) : Api.ReviewsOptions :=
  {| Api.search := Some (searchQuery st);
     Api.status :=
       if is_all (statusFilter st) then None
       else Some (StatusFilter_toString (statusFilter st));
     Api.sort_by := Some (SortKey_toString (sortBy st));
     Api.page := Some (Js.Int (page st));
     Api.limit := Some (Js.Int 20) |}.

Definition queryFn (st : State) : Api.Request :=
  Api.getReviews (Some (query_options st)).

(** *** The change handlers *)

Definition handleSearch (value : string) (st : State) : State :=
  setPage (fun _ => 1) (setSearchQuery value st).

Definition handleStatusChange (value : StatusFilter) (st : State) : State :=
  setPage (fun _ => 1) (setStatusFilter value st).

Definition handleSortChange (value : SortKey) (st : State) : State :=
  setPage (fun _ => 1) (setSortBy value st).

(** *** Export *)

Definition export_options (st : State) : Api.ExportOptions :=
  {| Api.format := Api.csv;
     Api.export_status :=
       if is_all (statusFilter st) then None
       else Some (StatusFilter_toString (statusFilter st)) |}.

Inductive Effect : Type :=
| Send (request : Api.Request)
| Download (contents : string) (filename : string)
| Notify (toast : Sonner.Toast).

(** How the [try] block of [handleExport] ends.  [reviews] is the value
    [api.exportReviews] resolved to, in the string form the template
    literal gives it: the body of the response, except that axios has
    already decoded a body that is valid JSON (a body [1.50] arrives as
    the number 1.5). *)
Inductive ExportOutcome : Type :=
| Rejected                          (* the call was rejected *)
| DownloadThrew (reviews : string)  (* it resolved; building the link threw *)
| Downloaded (reviews : string).    (* it resolved; the link was clicked *)

(** [handleExport]: the request, then either the download of the resolved
    value and a success toast, or (anything in the [try] block threw) an
    error toast.  [today] is the date part of [new Date().toISOString()]. *)
Definition handleExport (st : State) (today : string)
    (outcome : ExportOutcome) : list Effect :=
  Send (Api.exportReviews (export_options st))
  :: match outcome with
     | Downloaded reviews =>
         [Download reviews ("reviews_" ++ today ++ ".csv");
          Notify (Sonner.success "Reviews exported successfully")]
     | DownloadThrew _ => [Notify (Sonner.error "Failed to export reviews")]
     | Rejected => [Notify (Sonner.error "Failed to export reviews")]
     end.

(** *** Rendering *)

Record Button : Type := {
  label : string;
  disabled : bool;
  onClick : State -> State
}.

(** A click reaches the handler only when the button is enabled. *)
Definition click (b : Button) (st : State) : State :=
  if disabled b then st else onClick b st.

Record Pagination : Type := {
  previous : Button;
  page_label : string;
  next : Button
}.

(** The block under the table, rendered when
    [reviewsData && reviewsData.length > 0]. *)
Definition pagination (st : State) (reviewsData : option (list Api.Review))
  : option Pagination :=
  match reviewsData with
  | Some l =>
      if (0 <? List.length l)%nat then
        Some {| previous :=
                  {| label := "Previous";
                     disabled := page st =? 1;
                     onClick := setPage (fun p => Z.max 1 (p - 1)) |};
                page_label :=
                  "Page " ++ Js.number_toString (Js.Int (page st));
                next :=
                  {| label := "Next";
                     disabled := (List.length l <? 20)%nat;
                     onClick := setPage (fun p => p + 1) |} |}
      else None
  | None => None
  end.

Record Content : Type := {
  search_value : string;
  status_value : StatusFilter;
  sort_value : SortKey;
  table : ReviewsTable.View;
  pager : option Pagination
}.

(** The component has no effect hook: rendering emits no toast. *)
Definition effects (reviews : Query.Result (list Api.Review))
  : list Sonner.Toast := [].

Definition render (st : State) (reviews : Query.Result (list Api.Review))
  : Screen.t Content :=
  if Query.error reviews then
    Screen.ErrorState "Failed to load reviews"
      (Some ("Try Again", Query.refetch))
  else
    Screen.Page
      {| search_value := searchQuery st;
         status_value := statusFilter st;
         sort_value := sortBy st;
         table :=
           ReviewsTable.render
             (match Query.data reviews with Some l => l | None => [] end)
             (Some (Query.isLoading reviews));
         pager := pagination st (Query.data reviews) |}.

(** *** The page as a transition system *)

(** User events; a click on a pagination control happens against the
    data the page is showing at that moment. *)
Inductive Event : Type :=
| Search (value : string)
| StatusChange (value : StatusFilter)
| SortChange (value : SortKey)
| ClickPrevious (reviewsData : option (list Api.Review))
| ClickNext (reviewsData : option (list Api.Review)).

Definition step (st : State) (e : Event) : State :=
  match e with
  | Search v => handleSearch v st
  | StatusChange v => handleStatusChange v st
  | SortChange v => handleSortChange v st
  | ClickPrevious d =>
      match pagination st d with
      | Some pg => click (previous pg) st
      | None => st
      end
  | ClickNext d =>
      match pagination st d with
      | Some pg => click (next pg) st
      | None => st
      end
  end.

Definition run (events : list Event) (st : State) : State :=
  fold_left step events st.

End ReviewsPage.

(* ================================================================== *)
(** ** [pages/settings.tsx] *)

Module SettingsPage.

(** The fetch of the page, issued by [useQuery] when it mounts. *)
Definition queryFn : Api.Request := Api.getSettings.

(** The two [useState] cells, with what the page has done so far through
    [saveMutation]: the toasts shown, the update requests sent, and how
    many of those are still outstanding.  The fetch of [queryFn] is not
    part of this log. *)
Record State : Type := {
  saving : bool;
  settings : option Api.Settings;
  toasts : list Sonner.Toast;
  requests : list Api.Request;
  inflight : nat
}.

Definition initial : State :=
  {| saving := false; settings := None;
     toasts := []; requests := []; inflight := 0 |}.

Definition setSaving (b : bool) (st : State) : State :=
  {| saving := b; settings := settings st; toasts := toasts st;
     requests := requests st; inflight := inflight st |}.

Definition setSettings (s : Api.Settings) (st : State) : State :=
  {| saving := saving st; settings := Some s; toasts := toasts st;
     requests := requests st; inflight := inflight st |}.

Definition toast (t : Sonner.Toast) (st : State) : State :=
  {| saving := saving st; settings := settings st;
     toasts := (toasts st ++ [t])%list;
     requests := requests st; inflight := inflight st |}.

(** [saveMutation.mutate(newSettings)]: the mutation function runs
    [api.updateSettings(newSettings)]. *)
Definition mutate (newSettings : Api.Settings) (st : State) : State :=
  {| saving := saving st; settings := settings st; toasts := toasts st;
     requests := (requests st ++ [Api.updateSettings newSettings])%list;
     inflight := S (inflight st) |}.

Definition settle (st : State) : State :=
  {| saving := saving st; settings := settings st; toasts := toasts st;
     requests := requests st; inflight := pred (inflight st) |}.

(** The effect on [initialSettings]: copy the fetched value into the
    draft once it is there. *)
Definition initialSettings_effect (initialSettings : option Api.Settings)
    (st : State) : State :=
  match initialSettings with
  | Some s => setSettings s st
  | None => st
  end.

Definition onSuccess (st : State) : State :=
  setSaving false (toast (Sonner.success "Settings saved successfully") st).

Definition onError (st : State) : State :=
  setSaving false (toast (Sonner.error "Failed to save settings") st).

Definition handleSave (st : State) : State :=
  match settings st with
  | None => st
  | Some s => mutate s (setSaving true st)
  end.

(** The form controls: each rewrites one field of the draft,
    [setSettings({ ...settings, field: value })]. *)
Inductive Edit : Type :=
| edit_default_model (v : string)
| edit_max_files_per_review (v : Js.number)
| edit_max_lines_per_file (v : Js.number)
| edit_enable_caching (v : bool)
| edit_enable_parallel_processing (v : bool)
| edit_enable_batch_processing (v : bool)
| edit_rate_limit_per_hour (v : Js.number)
| edit_request_timeout_seconds (v : Js.number).

Definition apply_edit (e : Edit) (s : Api.Settings) : Api.Settings :=
  let '(Api.Build_Settings m f l c p b r t) := s in
  match e with
  | edit_default_model v => Api.Build_Settings (Some v) f l c p b r t
  | edit_max_files_per_review v => Api.Build_Settings m (Some v) l c p b r t
  | edit_max_lines_per_file v => Api.Build_Settings m f (Some v) c p b r t
  | edit_enable_caching v => Api.Build_Settings m f l (Some v) p b r t
  | edit_enable_parallel_processing v =>
      Api.Build_Settings m f l c (Some v) b r t
  | edit_enable_batch_processing v =>
      Api.Build_Settings m f l c p (Some v) r t
  | edit_rate_limit_per_hour v => Api.Build_Settings m f l c p b (Some v) t
  | edit_request_timeout_seconds v =>
      Api.Build_Settings m f l c p b r (Some v)
  end.

(** *** Rendering *)

Inductive Content : Type :=
| SettingsSkeleton (bars : nat)
| Form (draft : Api.Settings) (save_label : string) (save_disabled : bool)
| SettingsNothing.

Definition render (st : State) (query : Query.Result Api.Settings)
  : Screen.t Content :=
  if Query.error query then Screen.ErrorState "Failed to load settings" None
  else
    Screen.Page
      (if Query.isLoading query then SettingsSkeleton 4
       else match settings st with
            | Some s =>
                Form s (if saving st then "Saving..." else "Save Settings")
                  (saving st)
            | None => SettingsNothing
            end).

(** *** The page as a transition system *)

Inductive Event : Type :=
| Loaded (initialSettings : Api.Settings)
| Change (e : Edit)
| ClickSave
| MutationSucceeded
| MutationFailed.

(** The form, and with it every control, exists only while the draft is
    there; the save button is disabled while [saving]; a mutation can
    settle only if one is outstanding. *)
Definition step (st : State) (ev : Event) : State :=
  match ev with
  | Loaded s => initialSettings_effect (Some s) st
  | Change e =>
      match settings st with
      | Some s => setSettings (apply_edit e s) st
      | None => st
      end
  | ClickSave =>
      match settings st with
      | Some _ => if saving st then st else handleSave st
      | None => st
      end
  | MutationSucceeded =>
      match inflight st with
      | O => st
      | S _ => onSuccess (settle st)
      end
  | MutationFailed =>
      match inflight st with
      | O => st
      | S _ => onError (settle st)
      end
  end.

Definition run (events : list Event) (st : State) : State :=
  fold_left step events st.

End SettingsPage.

(* ================================================================== *)
(** ** How each page surfaces a failed fetch *)

Module ErrorPolicy.

(** The pages that fetch through [useQuery] and are named by the
    propagation policy. *)
Inductive PageName : Type := dashboard | reviews | analytics.

(** What the user gets: the toasts of the page's effects, and whether
    the page was replaced by an error panel and with which action. *)
Record Outcome : Type := {
  shown_toasts : list Sonner.Toast;
  blocking : bool;
  retry : option Query.Action
}.

Definition outcome {C : Type} (ts : list Sonner.Toast) (s : Screen.t C)
  : Outcome :=
  {| shown_toasts := ts;
     blocking := Screen.is_error_state s;
     retry := Screen.retry_action s |}.

(** A query whose fetch has failed with nothing cached. *)
Definition failed {A : Type} : Query.Result A :=
  {| Query.data := None; Query.isLoading := false; Query.error := true |}.

(** Every fetch of the page has failed. *)
Definition on_failure (p : PageName) (st : ReviewsPage.State) : Outcome :=
  match p with
  | dashboard =>
      outcome (Dashboard.effects failed failed)
        (Dashboard.render failed failed)
  | reviews =>
      outcome (ReviewsPage.effects failed) (ReviewsPage.render st failed)
  | analytics =>
      outcome (AnalyticsPage.effects failed) (AnalyticsPage.render failed)
  end.

(** The policy as the specification words it: a toast, and a blocking
    error state with a manual retry. *)
Definition toast_and_blocking_retry (o : Outcome) : Prop :=
  shown_toasts o <> [] /\ blocking o = true /\ retry o = Some Query.refetch.

End ErrorPolicy.

(* ================================================================== *)
(** ** [components/Layout.tsx] *)

Module Layout.

(** The icons of the navigation entries. *)
Inductive NavIcon : Type := Home | FileText | BarChart3 | Settings.

Record NavItem : Type := {
  href : string;
  label : string;
  icon : NavIcon
}.

Definition navItems : list NavItem :=
  [ {| href := "/"; label := "Dashboard"; icon := Home |};
    {| href := "/reviews"; label := "Reviews"; icon := FileText |};
    {| href := "/analytics"; label := "Analytics"; icon := BarChart3 |};
    {| href := "/settings"; label := "Settings"; icon := Settings |} ].

(** [router.pathname === href] *)
Definition isActive (pathname : string) (item : NavItem) : bool :=
  (pathname =? href item)%string.

Record Link : Type := {
  link_href : string;
  link_label : string;
  link_icon : NavIcon;
  link_className : string
}.

Definition link (pathname : string) (item : NavItem) : Link :=
  {| link_href := href item;
     link_label := label item;
     link_icon := icon item;
     link_className :=
       "flex items-center gap-3 rounded-lg px-4 py-2.5 text-sm font-medium transition-colors "
       ++ (if isActive pathname item then "bg-primary-600 text-white"
           else "text-gray-300 hover:bg-gray-800") |}.

Record View : Type := {
  sidebar_className : string;
  links : list Link;
  overlay : bool
}.

(** The component, from its [sidebarOpen] cell and the router's path. *)
Definition render (sidebarOpen : bool) (pathname : string) : View :=
  {| sidebar_className :=
       (if sidebarOpen then "translate-x-0" else "-translate-x-full")
       ++ " fixed left-0 top-0 z-40 h-full w-64 bg-gray-900 text-white transition-transform duration-300 md:static md:translate-x-0";
     links := map (link pathname) navItems;
     overlay := sidebarOpen |}.

(** The three buttons that write [sidebarOpen]: the header's menu
    button, the sidebar's close button and the overlay itself. *)
Inductive Event : Type := ClickMenu | ClickClose | ClickOverlay.

Definition step (sidebarOpen : bool) (e : Event) : bool :=
  match e with
  | ClickMenu => true
  | ClickClose => false
  | ClickOverlay => false
  end.

End Layout.

(* ================================================================== *)
(** ** Reading a form-urlencoded string back

    Not part of the sources: the inverse of [Js.urlencode], used to show
    that the query strings the client builds lose nothing. *)

Module FormUrlencoded.

Definition hex_value (c : ascii) : N :=
  let n := N_of_ascii c in
  (if (48 <=? n) && (n <=? 57) then n - 48
   else if (65 <=? n) && (n <=? 70) then n - 55
   else 0)%N.

Fixpoint urldecode (s : string) : string :=
  match s with
  | EmptyString => EmptyString
  | String c rest =>
      if (c =? "+")%char then String " " (urldecode rest)
      else if (c =? "%")%char then
        match rest with
        | String h (String l rest') =>
            String (ascii_of_N (16 * hex_value h + hex_value l))
              (urldecode rest')
        | _ => String c (urldecode rest)
        end
      else String c (urldecode rest)
  end.

(** The two separators of a query string. *)
Definition separator (c : ascii) : bool :=
  ((c =? "=") || (c =? "&"))%char.

Fixpoint no_separator (s : string) : bool :=
  match s with
  | EmptyString => true
  | String c rest => negb (separator c) && no_separator rest
  end.

End FormUrlencoded.

(* ================================================================== *)
(** ** Vocabulary of the statements and sample inputs *)

(** Whether an optional field passes the [if (options?.field)] test. *)
Definition provided_string (field : option string) : bool :=
  match field with Some s => Js.string_truthy s | None => false end.

Definition provided_number (field : option Js.number) : bool :=
  match field with Some n => Js.number_truthy n | None => false end.

(** An optional string filter that is unset or empty. *)
Definition unset_or_empty (field : option string) : Prop :=
  field = None \/ field = Some "".

(** While the settings draft is missing the page has done nothing: it is
    not saving, has sent nothing and has shown nothing. *)
Definition idle_without_draft (st : SettingsPage.State) : Prop :=
  SettingsPage.settings st = None ->
  SettingsPage.saving st = false /\
  SettingsPage.requests st = [] /\
  SettingsPage.inflight st = 0%nat /\
  SettingsPage.toasts st = [].

(** The value an optional field contributes to the query string. *)
Definition sent_string (field : option string) : option string :=
  match field with
  | Some s => if Js.string_truthy s then Some s else None
  | None => None
  end.

Definition sent_number (field : option Js.number) : option string :=
  match field with
  | Some n => if Js.number_truthy n then Some (Js.number_toString n) else None
  | None => None
  end.


(** The change line of a metric card, by its favourable flag and the
    text after the arrow. *)
Definition trend_line (favourable : bool) (shown : string)
  : option MetricCard.Indicator :=
  Some {| MetricCard.className :=
            "text-xs font-medium mt-2 "
            ++ (if favourable then "text-success-600" else "text-danger-600");
          MetricCard.text :=
            (if favourable then "↑" else "↓") ++ " " ++ shown |}.

(** The events of the settings page that write the draft: the arrival
    of fetched settings and the form controls. *)
Definition writes_draft (ev : SettingsPage.Event) : bool :=
  match ev with
  | SettingsPage.Loaded _ | SettingsPage.Change _ => true
  | _ => false
  end.

(** Every request of the settings page is an update of [/settings]. *)
Definition is_settings_update (r : Api.Request) : bool :=
  match r with
  | Api.PUT url _ => (url =? "/settings")%string
  | Api.GET _ _ => false
  end.

(** [saving] is on exactly while one update is outstanding, and what has
    been sent is what has been answered plus what is outstanding. *)
Definition settings_accounting (st : SettingsPage.State) : Prop :=
  SettingsPage.inflight st = (if SettingsPage.saving st then 1 else 0)%nat /\
  List.length (SettingsPage.requests st)
  = (List.length (SettingsPage.toasts st) + SettingsPage.inflight st)%nat /\
  forallb is_settings_update (SettingsPage.requests st) = true.

(** The field of the draft a form control writes. *)
Inductive SettingsField : Type :=
| field_default_model
| field_max_files_per_review
| field_max_lines_per_file
| field_enable_caching
| field_enable_parallel_processing
| field_enable_batch_processing
| field_rate_limit_per_hour
| field_request_timeout_seconds.

Definition edited_field (e : SettingsPage.Edit) : SettingsField :=
  match e with
  | SettingsPage.edit_default_model _ => field_default_model
  | SettingsPage.edit_max_files_per_review _ => field_max_files_per_review
  | SettingsPage.edit_max_lines_per_file _ => field_max_lines_per_file
  | SettingsPage.edit_enable_caching _ => field_enable_caching
  | SettingsPage.edit_enable_parallel_processing _ =>
      field_enable_parallel_processing
  | SettingsPage.edit_enable_batch_processing _ =>
      field_enable_batch_processing
  | SettingsPage.edit_rate_limit_per_hour _ => field_rate_limit_per_hour
  | SettingsPage.edit_request_timeout_seconds _ =>
      field_request_timeout_seconds
  end.

(** A field of the draft, as a value of its kind. *)
Inductive FieldValue : Type :=
| text_value (v : option string)
| number_value (v : option Js.number)
| flag_value (v : option bool).

Definition field_value (f : SettingsField) (s : Api.Settings) : FieldValue :=
  match f with
  | field_default_model => text_value (Api.default_model s)
  | field_max_files_per_review => number_value (Api.max_files_per_review s)
  | field_max_lines_per_file => number_value (Api.max_lines_per_file s)
  | field_enable_caching => flag_value (Api.enable_caching s)
  | field_enable_parallel_processing =>
      flag_value (Api.enable_parallel_processing s)
  | field_enable_batch_processing =>
      flag_value (Api.enable_batch_processing s)
  | field_rate_limit_per_hour => number_value (Api.rate_limit_per_hour s)
  | field_request_timeout_seconds =>
      number_value (Api.request_timeout_seconds s)
  end.

(** The value a form control hands to its field. *)
Definition written_value (e : SettingsPage.Edit) : FieldValue :=
  match e with
  | SettingsPage.edit_default_model v => text_value (Some v)
  | SettingsPage.edit_max_files_per_review v => number_value (Some v)
  | SettingsPage.edit_max_lines_per_file v => number_value (Some v)
  | SettingsPage.edit_enable_caching v => flag_value (Some v)
  | SettingsPage.edit_enable_parallel_processing v => flag_value (Some v)
  | SettingsPage.edit_enable_batch_processing v => flag_value (Some v)
  | SettingsPage.edit_rate_limit_per_hour v => number_value (Some v)
  | SettingsPage.edit_request_timeout_seconds v => number_value (Some v)
  end.

(** Whether a navigation link carries the classes of the active entry. *)
Definition highlighted (l : Layout.Link) : bool :=
  (Layout.link_className l
   =? "flex items-center gap-3 rounded-lg px-4 py-2.5 text-sm font-medium transition-colors bg-primary-600 text-white")%string.

(** Whether an effect of an export is a download. *)
Definition is_download (e : ReviewsPage.Effect) : bool :=
  match e with ReviewsPage.Download _ _ => true | _ => false end.

(** The toasts among the effects of an export. *)
Definition export_toasts (es : list ReviewsPage.Effect) : list Sonner.Toast :=
  flat_map (fun e => match e with
                     | ReviewsPage.Notify t => [t]
                     | _ => []
                     end) es.

(** *** Sample inputs *)
(** *** Sample inputs *)

Module Sample.

Definition state : ReviewsPage.State :=
  {| ReviewsPage.searchQuery := "";
     ReviewsPage.statusFilter := ReviewsPage.all;
     ReviewsPage.sortBy := ReviewsPage.latency;
     ReviewsPage.page := 3 |}.

(** A call that leaves every optional filter unset or empty. *)
Definition bare_options : Api.ReviewsOptions :=
  {| Api.search := Some ""; Api.status := None; Api.sort_by := Some "";
     Api.page := None; Api.limit := None |}.

Definition metrics (trend : Js.number) : Api.Metrics :=
  {| Api.total_reviews := Js.Int 120; Api.success_rate := Js.Int 97;
     Api.avg_latency_ms := Js.Int 840; Api.cache_hit_rate := Js.Int 42;
     Api.review_trend := Js.Int 12; Api.latency_trend := trend;
     Api.cache_trend := Js.Int (-3); Api.success_trend := Js.Int 1 |}.

Definition review (status : string) : Api.Review :=
  {| Api.id := "r-1"; Api.installation_id := "i-7";
     Api.repo_name := "acme/widgets"; Api.pr_number := Js.Int 42;
     Api.pr_url := "https://github.com/acme/widgets/pull/42";
     Api.commit_sha := "9fceb02"; Api.files_reviewed := Js.Int 3;
     Api.review_status := status; Api.total_comments := Js.Int 5;
     Api.api_latency_ms := Js.Int 910; Api.cache_hit := false;
     Api.error_message := None;
     Api.created_at := "2024-05-01T10:15:00Z";
     Api.updated_at := "2024-05-01T10:15:02Z" |}.

Definition analytics : AnalyticsPage.Analytics :=
  {| AnalyticsPage.total_api_calls := Js.Int 5400;
     AnalyticsPage.api_calls_trend := Js.Finite true "1" ".5";
     AnalyticsPage.avg_response_time_ms := Js.Finite false "8" "12.4";
     AnalyticsPage.response_time_trend := Js.Finite true "2" ".5";
     AnalyticsPage.error_rate := Js.Finite false "0" ".75";
     AnalyticsPage.error_rate_trend := Js.Int 3;
     AnalyticsPage.model_performance := [];
     AnalyticsPage.top_repositories := [];
     AnalyticsPage.cache_hits := Js.Int 310;
     AnalyticsPage.cache_misses := Js.Int 95;
     AnalyticsPage.rate_limited_requests := Js.Int 0;
     AnalyticsPage.total_cost_usd := Js.Finite false "1" "2.34" |}.

Definition draft : Api.Settings :=
  {| Api.default_model := Some "gpt-4";
     Api.max_files_per_review := Some (Js.Int 25);
     Api.max_lines_per_file := Some (Js.Int 500);
     Api.enable_caching := Some true;
     Api.enable_parallel_processing := Some false;
     Api.enable_batch_processing := None;
     Api.rate_limit_per_hour := Some (Js.Int 60);
     Api.request_timeout_seconds := Some (Js.Int 30) |}.

(** A query that has failed while an earlier result is still cached. *)
Definition failed_with_stale {A : Type} (stale : A) : Query.Result A :=
  {| Query.data := Some stale; Query.isLoading := false;
     Query.error := true |}.

(** A fetch that has succeeded with no element and is at rest. *)
Definition empty_result : Query.Result (list Api.Review) :=
  {| Query.data := Some []; Query.isLoading := false;
     Query.error := false |}.

Definition failure_filter : ReviewsPage.State :=
  ReviewsPage.handleStatusChange ReviewsPage.failure state.

(** The settings page with [draft] loaded and nothing else done. *)
Definition loaded : SettingsPage.State :=
  SettingsPage.run [SettingsPage.Loaded draft] SettingsPage.initial.

End Sample.

(* ================================================================== *)
(** * Properties *)

(** ** Auxiliary facts about the JavaScript fragment *)

Lemma number_toString_nonempty (n : Js.number) : Js.number_toString n <> "".
Proof.
  destruct n as [ | [ | ] | z | [ | ] c s ]; simpl; try discriminate.
  destruct z as [ | p | p ]; simpl; try discriminate.
  unfold NilZero.string_of_uint.
  destruct (Pos.to_uint p); discriminate.
Qed.

Lemma string_truthy_nonempty (s : string) :
  Js.string_truthy s = true <-> s <> "".
Proof.
  destruct s; simpl; split; intro H; try discriminate; try reflexivity.
  now elim H.
Qed.


Lemma has_append (name k v : string) (ps : Js.URLSearchParams) :
  Js.has name (Js.append k v ps) = Js.has name ps || (k =? name)%string.
Proof.
  unfold Js.has, Js.append.
  rewrite existsb_app. simpl. now rewrite orb_false_r.
Qed.

Lemma has_append_string (name k : string) (f : option string)
    (ps : Js.URLSearchParams) :
  Js.has name (Api.append_string k f ps)
  = Js.has name ps || ((k =? name)%string && provided_string f).
Proof.
  unfold Api.append_string, provided_string.
  destruct f as [s | ]; [destruct (Js.string_truthy s) | ];
    rewrite ?has_append, ?andb_true_r, ?andb_false_r, ?orb_false_r;
    reflexivity.
Qed.

Lemma has_append_number (name k : string) (f : option Js.number)
    (ps : Js.URLSearchParams) :
  Js.has name (Api.append_number k f ps)
  = Js.has name ps || ((k =? name)%string && provided_number f).
Proof.
  unfold Api.append_number, provided_number.
  destruct f as [n | ]; [destruct (Js.number_truthy n) | ];
    rewrite ?has_append, ?andb_true_r, ?andb_false_r, ?orb_false_r;
    reflexivity.
Qed.

Lemma In_append_string (name value k : string) (f : option string)
    (ps : Js.URLSearchParams) :
  In (name, value) (Api.append_string k f ps) ->
  In (name, value) ps \/ (name = k /\ f = Some value /\ value <> "").
Proof.
  unfold Api.append_string, Js.append.
  destruct f as [s | ]; [ | now left].
  destruct (Js.string_truthy s) eqn:Hs; [ | now left].
  intros H. apply in_app_or in H. destruct H as [H | [H | []]]; [now left | ].
  inversion H; subst. right. repeat split.
  now apply string_truthy_nonempty.
Qed.

Lemma In_append_number (name value k : string) (f : option Js.number)
    (ps : Js.URLSearchParams) :
  In (name, value) (Api.append_number k f ps) ->
  In (name, value) ps \/
  (name = k /\ exists n, f = Some n /\ value = Js.number_toString n).
Proof.
  unfold Api.append_number, Js.append.
  destruct f as [n | ]; [ | now left].
  destruct (Js.number_truthy n); [ | now left].
  intros H. apply in_app_or in H. destruct H as [H | [H | []]]; [now left | ].
  inversion H; subst. right. split; [reflexivity | now exists n].
Qed.

(** The parameters of [getReviews] name exactly the fields that pass
    their test. *)
Lemma getReviews_params_has (o : Api.ReviewsOptions) :
  let params := Api.getReviews_params (Some o) in
  Js.has "search" params = provided_string (Api.search o) /\
  Js.has "status" params = provided_string (Api.status o) /\
  Js.has "sort_by" params = provided_string (Api.sort_by o) /\
  Js.has "page" params = provided_number (Api.page o) /\
  Js.has "limit" params = provided_number (Api.limit o).
Proof.
  unfold Api.getReviews_params; cbv zeta.
  repeat split;
    rewrite ?has_append_number, ?has_append_string; simpl;
    rewrite ?orb_false_r; reflexivity.
Qed.

Lemma getReviews_params_values (options : option Api.ReviewsOptions)
    (name value : string) :
  In (name, value) (Api.getReviews_params options) -> value <> "".
Proof.
  unfold Api.getReviews_params; cbv zeta. intros H.
  repeat match type of H with
  | In _ (Api.append_number _ _ _) =>
      apply In_append_number in H;
      destruct H as [H | (_ & n & _ & ->)];
      [ | apply number_toString_nonempty]
  | In _ (Api.append_string _ _ _) =>
      apply In_append_string in H;
      destruct H as [H | (_ & _ & Hne)]; [ | exact Hne]
  end.
  destruct H.
Qed.

(** ** The requests on concrete inputs *)

Example urlencode_reserved :
  Js.urlencode "acme/widgets fix&go_1.0" = "acme%2Fwidgets+fix%26go_1.0".
Proof. reflexivity. Qed.

Example reviews_request_initial :
  ReviewsPage.queryFn ReviewsPage.initial
  = Api.GET "/reviews?sort_by=date&page=1&limit=20" [].
Proof. reflexivity. Qed.

Example reviews_request_filtered :
  ReviewsPage.queryFn
    (ReviewsPage.run
       [ReviewsPage.StatusChange ReviewsPage.partial_failure;
        ReviewsPage.Search "acme widgets";
        ReviewsPage.ClickNext (Some (repeat (Sample.review "failure") 20))]
       ReviewsPage.initial)
  = Api.GET
      "/reviews?search=acme+widgets&status=partial_failure&sort_by=date&page=2&limit=20"
      [].
Proof. reflexivity. Qed.

Example dashboard_reviews_request :
  Dashboard.reviews_queryFn = Api.GET "/reviews?limit=10" [].
Proof. reflexivity. Qed.

Example reviews_request_page_zero :
  Api.getReviews
    (Some {| Api.search := None; Api.status := Some "failure";
             Api.sort_by := None; Api.page := Some (Js.Int 0);
             Api.limit := Some Js.NaN |})
  = Api.GET "/reviews?status=failure" [].
Proof. reflexivity. Qed.

Example export_request_all :
  ReviewsPage.handleExport ReviewsPage.initial "2024-05-01"
    (ReviewsPage.Downloaded "id,repo")
  = [ReviewsPage.Send (Api.GET "/reviews/export?format=csv" []);
     ReviewsPage.Download "id,repo" "reviews_2024-05-01.csv";
     ReviewsPage.Notify (Sonner.success "Reviews exported successfully")].
Proof. reflexivity. Qed.

Example export_request_failure_filter :
  ReviewsPage.handleExport Sample.failure_filter "2024-05-01"
    ReviewsPage.Rejected
  = [ReviewsPage.Send
       (Api.GET "/reviews/export?format=csv&status=failure" []);
     ReviewsPage.Notify (Sonner.error "Failed to export reviews")].
Proof. reflexivity. Qed.

Example row_of_partial_failure :
  let r := ReviewsTable.row (Sample.review "partial_failure") in
  ReviewsTable.status_label r = "partial failure" /\
  ReviewsTable.pr r = "#42" /\ ReviewsTable.latency r = "910ms".
Proof. repeat split. Qed.

(** ** C1 *)

(** C1.  For every call of [getReviews], an optional filter that is unset
    or empty has no parameter in the query string, no parameter is ever
    sent with an empty value, and the request of the reviews page with
    search text [""] and status filter [all] is a GET of [/reviews] whose
    query string has neither a [search] nor a [status] parameter. *)
Theorem getReviews_omits_unset_filters :
  forall options : option Api.ReviewsOptions,
    let o := match options with Some o => o | None => Api.no_options end in
    let params := Api.getReviews_params options in
    (unset_or_empty (Api.search o) -> Js.has "search" params = false) /\
    (unset_or_empty (Api.status o) -> Js.has "status" params = false) /\
    (unset_or_empty (Api.sort_by o) -> Js.has "sort_by" params = false) /\
    (Api.page o = None -> Js.has "page" params = false) /\
    (Api.limit o = None -> Js.has "limit" params = false) /\
    (forall name value, In (name, value) params -> value <> "") /\
    Api.getReviews options
    = Api.GET ("/reviews?" ++ Js.URLSearchParams_toString params) [] /\
    (forall st : ReviewsPage.State,
        options = Some (ReviewsPage.query_options st) ->
        ReviewsPage.searchQuery st = "" ->
        ReviewsPage.statusFilter st = ReviewsPage.all ->
        ReviewsPage.queryFn st
        = Api.GET ("/reviews?" ++ Js.URLSearchParams_toString params) [] /\
        Js.has "search" params = false /\ Js.has "status" params = false).
Proof.
  intros options o params.
  assert (Hhas : Js.has "search" params = provided_string (Api.search o) /\
                 Js.has "status" params = provided_string (Api.status o) /\
                 Js.has "sort_by" params = provided_string (Api.sort_by o) /\
                 Js.has "page" params = provided_number (Api.page o) /\
                 Js.has "limit" params = provided_number (Api.limit o)).
  { subst o params. destruct options as [o | ].
    - apply getReviews_params_has.
    - repeat split. }
  destruct Hhas as (Hs & Ht & Hb & Hp & Hl).
  repeat match goal with |- _ /\ _ => split end.
  - intros [E | E]; rewrite Hs, E; reflexivity.
  - intros [E | E]; rewrite Ht, E; reflexivity.
  - intros [E | E]; rewrite Hb, E; reflexivity.
  - intros E; rewrite Hp, E; reflexivity.
  - intros E; rewrite Hl, E; reflexivity.
  - intros name value. apply getReviews_params_values.
  - reflexivity.
  - intros st -> Hq Hf. subst o params.
    split; [reflexivity | ].
    rewrite Hs, Ht. unfold ReviewsPage.query_options; simpl.
    rewrite Hq, Hf. split; reflexivity.
Qed.

Lemma getReviews_omits_unset_filters_witness :
  (ReviewsPage.queryFn Sample.state
   = Api.GET "/reviews?sort_by=latency&page=3&limit=20" [] /\
   Js.has "search"
     (Api.getReviews_params (Some (ReviewsPage.query_options Sample.state)))
   = false /\
   Js.has "status"
     (Api.getReviews_params (Some (ReviewsPage.query_options Sample.state)))
   = false) /\
  (let bare := Api.getReviews_params (Some Sample.bare_options) in
   Js.has "search" bare = false /\ Js.has "status" bare = false /\
   Js.has "sort_by" bare = false /\ Js.has "page" bare = false /\
   Js.has "limit" bare = false).
Proof.
  split.
  - destruct (getReviews_omits_unset_filters
                (Some (ReviewsPage.query_options Sample.state)))
      as (_ & _ & _ & _ & _ & _ & _ & H).
    exact (H Sample.state eq_refl eq_refl eq_refl).
  - destruct (getReviews_omits_unset_filters (Some Sample.bare_options))
      as (Hs & Ht & Hb & Hp & Hl & _).
    exact (conj (Hs (or_intror eq_refl))
             (conj (Ht (or_introl eq_refl))
                (conj (Hb (or_intror eq_refl))
                   (conj (Hp eq_refl) (Hl eq_refl))))).
Defined.

(** ** C2 *)

(** C2.  On the reviews page a change of the search text, of the status
    filter or of the sort key stores the new value and sets the page
    number to 1, whatever the page number was. *)
Theorem filter_change_resets_page :
  forall st : ReviewsPage.State,
    (forall value,
        ReviewsPage.page (ReviewsPage.handleSearch value st) = 1 /\
        ReviewsPage.searchQuery (ReviewsPage.handleSearch value st) = value) /\
    (forall value,
        ReviewsPage.page (ReviewsPage.handleStatusChange value st) = 1 /\
        ReviewsPage.statusFilter (ReviewsPage.handleStatusChange value st)
        = value) /\
    (forall value,
        ReviewsPage.page (ReviewsPage.handleSortChange value st) = 1 /\
        ReviewsPage.sortBy (ReviewsPage.handleSortChange value st) = value).
Proof.
  intros st. repeat split.
Qed.

(** ** C3 *)

(** C3.  When the settings update fails, the draft is what it was (every
    field, as the record is the same) and [saving] is false: for the
    failure handler in any state, and for a whole save attempt that
    starts from a loaded draft and ends in failure, which sends the
    draft once, shows the error toast and sends nothing again. *)
Theorem failed_save_keeps_draft :
  forall st : SettingsPage.State,
    SettingsPage.settings (SettingsPage.onError st) = SettingsPage.settings st /\
    SettingsPage.saving (SettingsPage.onError st) = false /\
    (forall draft : Api.Settings,
        SettingsPage.settings st = Some draft ->
        SettingsPage.saving st = false ->
        let st' :=
          SettingsPage.run [SettingsPage.ClickSave; SettingsPage.MutationFailed]
            st in
        SettingsPage.settings st' = Some draft /\
        SettingsPage.saving st' = false /\
        SettingsPage.saving (SettingsPage.step st SettingsPage.ClickSave)
        = true /\
        SettingsPage.requests st'
        = (SettingsPage.requests st ++ [Api.PUT "/settings" draft])%list /\
        SettingsPage.toasts st'
        = (SettingsPage.toasts st
             ++ [Sonner.error "Failed to save settings"])%list).
Proof.
  intros st. split; [reflexivity | split; [reflexivity | ]].
  intros draft Hd Hs st'. subst st'.
  unfold SettingsPage.run; simpl.
  rewrite Hd, Hs. unfold SettingsPage.handleSave. rewrite Hd. simpl.
  rewrite Hd. repeat split.
Qed.

Lemma failed_save_keeps_draft_witness :
  let st' :=
    SettingsPage.run [SettingsPage.ClickSave; SettingsPage.MutationFailed]
      Sample.loaded in
  SettingsPage.settings st' = Some Sample.draft /\
  SettingsPage.saving st' = false /\
  SettingsPage.saving (SettingsPage.step Sample.loaded SettingsPage.ClickSave)
  = true /\
  SettingsPage.requests st' = [Api.PUT "/settings" Sample.draft] /\
  SettingsPage.toasts st' = [Sonner.error "Failed to save settings"].
Proof.
  destruct (failed_save_keeps_draft Sample.loaded) as (_ & _ & H).
  exact (H Sample.draft eq_refl eq_refl).
Defined.

(** ** C4 *)




(** ** C5 *)



(** ** C6 *)

(** C6.  An export from the reviews page sends one GET, and no other
    request, whose URL is [/reviews/export?format=csv] when the status
    filter is [all] and [/reviews/export?format=csv&status=<filter>]
    otherwise: the query string carries [format=csv], and a [status]
    parameter exactly when the status filter is not [all], its value
    then being the filter's. *)
Theorem export_request_params :
  forall (st : ReviewsPage.State) (today : string)
         (outcome : ReviewsPage.ExportOutcome),
    let params := Api.exportReviews_params (ReviewsPage.export_options st) in
    (exists rest,
        ReviewsPage.handleExport st today outcome
        = ReviewsPage.Send
            (Api.GET
               match ReviewsPage.statusFilter st with
               | ReviewsPage.all => "/reviews/export?format=csv"
               | ReviewsPage.success =>
                   "/reviews/export?format=csv&status=success"
               | ReviewsPage.partial_failure =>
                   "/reviews/export?format=csv&status=partial_failure"
               | ReviewsPage.failure =>
                   "/reviews/export?format=csv&status=failure"
               end [])
          :: rest /\
        forall r, ~ In (ReviewsPage.Send r) rest) /\
    Api.exportReviews (ReviewsPage.export_options st)
    = Api.GET ("/reviews/export?" ++ Js.URLSearchParams_toString params) [] /\
    params
    = match ReviewsPage.statusFilter st with
      | ReviewsPage.all => [("format", "csv")]
      | f => [("format", "csv");
              ("status", ReviewsPage.StatusFilter_toString f)]
      end /\
    Js.get "format" params = Some "csv" /\
    (Js.has "status" params = true <->
     ReviewsPage.statusFilter st <> ReviewsPage.all) /\
    (forall value, In ("status", value) params ->
        value = ReviewsPage.StatusFilter_toString (ReviewsPage.statusFilter st)) /\
    (ReviewsPage.statusFilter st <> ReviewsPage.all ->
     Js.get "status" params
     = Some (ReviewsPage.StatusFilter_toString (ReviewsPage.statusFilter st))).
Proof.
  intros st today outcome params. subst params.
  split; [ | split; [ | split; [ | split; [ | split; [ | split]]]]].
  - unfold ReviewsPage.handleExport, ReviewsPage.export_options.
    eexists. split.
    + destruct (ReviewsPage.statusFilter st); reflexivity.
    + intros r H. destruct outcome; simpl in H;
        repeat (destruct H as [H | H]; [discriminate | ]); exact H.
  - reflexivity.
  - unfold ReviewsPage.export_options.
    destruct (ReviewsPage.statusFilter st); reflexivity.
  - unfold ReviewsPage.export_options.
    destruct (ReviewsPage.statusFilter st); reflexivity.
  - unfold ReviewsPage.export_options.
    destruct (ReviewsPage.statusFilter st); simpl; split; intros H;
      try discriminate; try reflexivity.
    now elim H.
  - unfold ReviewsPage.export_options.
    destruct (ReviewsPage.statusFilter st); simpl; intros value H;
      repeat (destruct H as [H | H];
              [inversion H; subst; reflexivity | ]); destruct H.
  - unfold ReviewsPage.export_options.
    destruct (ReviewsPage.statusFilter st); simpl; intros H;
      try reflexivity.
    now elim H.
Qed.

Lemma export_request_params_witness :
  (exists rest,
      ReviewsPage.handleExport Sample.failure_filter "2024-05-01"
        ReviewsPage.Rejected
      = ReviewsPage.Send
          (Api.GET "/reviews/export?format=csv&status=failure" [])
        :: rest /\
      forall r, ~ In (ReviewsPage.Send r) rest) /\
  Js.get "status"
    (Api.exportReviews_params (ReviewsPage.export_options Sample.failure_filter))
  = Some "failure" /\
  Js.has "status"
    (Api.exportReviews_params (ReviewsPage.export_options Sample.failure_filter))
  = true.
Proof.
  destruct (export_request_params Sample.failure_filter "2024-05-01"
              ReviewsPage.Rejected)
    as (Hurl & _ & _ & _ & Hiff & _ & Hget).
  split; [exact Hurl | split].
  - apply Hget. discriminate.
  - apply Hiff. discriminate.
Defined.

(** ** C7 *)

(** C7.  The table component given no review and not loading returns its
    [No reviews found] placeholder; so, whatever the filters, when the
    reviews fetch has succeeded with zero elements and no fetch is in
    flight, the page shows that placeholder (not a table, not a
    skeleton) and no pagination. *)
Theorem empty_result_shows_placeholder :
  (forall loading : option bool,
      loading <> Some true ->
      ReviewsTable.render [] loading
      = ReviewsTable.Placeholder "No reviews found") /\
  (forall (st : ReviewsPage.State) (reviews : Query.Result (list Api.Review)),
      Query.data reviews = Some [] ->
      Query.isLoading reviews = false ->
      Query.error reviews = false ->
      exists content,
        ReviewsPage.render st reviews = Screen.Page content /\
        ReviewsPage.table content
        = ReviewsTable.Placeholder "No reviews found" /\
        ReviewsPage.pager content = None).
Proof.
  split.
  - intros [[ | ] | ] H; [now elim H | reflexivity | reflexivity].
  - intros st reviews Hd Hl He.
    unfold ReviewsPage.render. rewrite He, Hd, Hl.
    eexists. repeat split.
Qed.

Lemma empty_result_shows_placeholder_witness :
  ReviewsTable.render [] None = ReviewsTable.Placeholder "No reviews found" /\
  exists content,
    ReviewsPage.render Sample.failure_filter Sample.empty_result
    = Screen.Page content /\
    ReviewsPage.table content = ReviewsTable.Placeholder "No reviews found" /\
    ReviewsPage.pager content = None.
Proof.
  destruct empty_result_shows_placeholder as (Hc & Hp).
  split.
  - apply Hc. discriminate.
  - exact (Hp Sample.failure_filter Sample.empty_result
             eq_refl eq_refl eq_refl).
Defined.

(** ** C8 *)

(** C8, as the specification states it, fails on each of the three
    pages: with every fetch failed the reviews page shows no toast, and
    the dashboard and the analytics page show no error state. *)
Lemma error_policy_counterexample :
  ~ ErrorPolicy.toast_and_blocking_retry
      (ErrorPolicy.on_failure ErrorPolicy.reviews ReviewsPage.initial) /\
  ~ ErrorPolicy.toast_and_blocking_retry
      (ErrorPolicy.on_failure ErrorPolicy.dashboard ReviewsPage.initial) /\
  ~ ErrorPolicy.toast_and_blocking_retry
      (ErrorPolicy.on_failure ErrorPolicy.analytics ReviewsPage.initial).
Proof.
  unfold ErrorPolicy.toast_and_blocking_retry.
  repeat split; simpl; intros (Ht & Hb & Hr);
    first [ now apply Ht | discriminate Hb ].
Qed.

(** C8, amended.  A failed fetch surfaces in one way per page: on the
    dashboard and on the analytics page as the toast of the failed fetch
    while the page keeps rendering its content; on the reviews page as
    the error state with the [Try Again] button bound to [refetch], and
    with no toast. *)
Theorem error_policy_per_page :
  (forall (metrics : Query.Result Api.Metrics)
          (reviews : Query.Result (list Api.Review)),
      (Query.error metrics = true ->
       In (Sonner.error "Failed to load metrics")
          (Dashboard.effects metrics reviews)) /\
      (Query.error reviews = true ->
       In (Sonner.error "Failed to load reviews")
          (Dashboard.effects metrics reviews)) /\
      Screen.is_error_state (Dashboard.render metrics reviews) = false) /\
  (forall analytics : Query.Result AnalyticsPage.Analytics,
      (Query.error analytics = true ->
       AnalyticsPage.effects analytics
       = [Sonner.error "Failed to load analytics"]) /\
      Screen.is_error_state (AnalyticsPage.render analytics) = false) /\
  (forall (st : ReviewsPage.State) (reviews : Query.Result (list Api.Review)),
      (Query.error reviews = true ->
       ReviewsPage.render st reviews
       = Screen.ErrorState "Failed to load reviews"
           (Some ("Try Again", Query.refetch))) /\
      ReviewsPage.effects reviews = []).
Proof.
  split; [intros metrics reviews; split; [ | split]
         | split; [intros analytics; split | intros st reviews; split]].
  - intros E. unfold Dashboard.effects. rewrite E.
    apply in_or_app. left. now left.
  - intros E. unfold Dashboard.effects. rewrite E.
    apply in_or_app. right. now left.
  - reflexivity.
  - intros E. unfold AnalyticsPage.effects. now rewrite E.
  - reflexivity.
  - intros E. unfold ReviewsPage.render. now rewrite E.
  - reflexivity.
Qed.

Lemma error_policy_per_page_witness :
  (In (Sonner.error "Failed to load metrics")
      (Dashboard.effects ErrorPolicy.failed ErrorPolicy.failed) /\
   In (Sonner.error "Failed to load reviews")
      (Dashboard.effects ErrorPolicy.failed ErrorPolicy.failed)) /\
  AnalyticsPage.effects ErrorPolicy.failed
  = [Sonner.error "Failed to load analytics"] /\
  ReviewsPage.render Sample.state
    (Sample.failed_with_stale [Sample.review "success"])
  = Screen.ErrorState "Failed to load reviews"
      (Some ("Try Again", Query.refetch)).
Proof.
  destruct error_policy_per_page as (Hd & Ha & Hr).
  destruct (Hd ErrorPolicy.failed ErrorPolicy.failed) as (Hm & Hv & _).
  destruct (Ha ErrorPolicy.failed) as (Hat & _).
  destruct (Hr Sample.state
              (Sample.failed_with_stale [Sample.review "success"]))
    as (Hrs & _).
  exact (conj (conj (Hm eq_refl) (Hv eq_refl))
           (conj (Hat eq_refl) (Hrs eq_refl))).
Defined.

(** ** C9 *)

(** Every event keeps the page number at least 1. *)
Lemma step_keeps_page_positive (st : ReviewsPage.State) (e : ReviewsPage.Event) :
  1 <= ReviewsPage.page st -> 1 <= ReviewsPage.page (ReviewsPage.step st e).
Proof.
  intros H. destruct e as [v | v | v | d | d]; simpl; try lia.
  - unfold ReviewsPage.pagination.
    destruct d as [l | ]; [ | exact H].
    destruct (0 <? List.length l)%nat; [ | exact H].
    unfold ReviewsPage.click; simpl.
    destruct (ReviewsPage.page st =? 1); simpl; lia.
  - unfold ReviewsPage.pagination.
    destruct d as [l | ]; [ | exact H].
    destruct (0 <? List.length l)%nat; [ | exact H].
    unfold ReviewsPage.click; simpl.
    destruct (List.length l <? 20)%nat; simpl; lia.
Qed.

Lemma run_keeps_page_positive (events : list ReviewsPage.Event) :
  forall st : ReviewsPage.State,
    1 <= ReviewsPage.page st ->
    1 <= ReviewsPage.page (ReviewsPage.run events st).
Proof.
  induction events as [ | e events IH]; intros st H; simpl.
  - exact H.
  - apply IH. now apply step_keeps_page_positive.
Qed.

(** C9.  The page number of the reviews page is always at least 1: it
    starts at 1; a search, status or sort change sets it to 1; where the
    pagination is rendered, Previous is disabled exactly when the page is
    1 and otherwise stores [max(1, page - 1)], and Next stores
    [page + 1]; hence after any sequence of events from the initial
    state the page number is at least 1. *)
Theorem page_number_at_least_one :
  ReviewsPage.page ReviewsPage.initial = 1 /\
  (forall st value,
      ReviewsPage.page (ReviewsPage.step st (ReviewsPage.Search value)) = 1) /\
  (forall st value,
      ReviewsPage.page (ReviewsPage.step st (ReviewsPage.StatusChange value))
      = 1) /\
  (forall st value,
      ReviewsPage.page (ReviewsPage.step st (ReviewsPage.SortChange value))
      = 1) /\
  (forall st reviewsData controls,
      ReviewsPage.pagination st reviewsData = Some controls ->
      ReviewsPage.disabled (ReviewsPage.previous controls)
      = (ReviewsPage.page st =? 1) /\
      ReviewsPage.page
        (ReviewsPage.onClick (ReviewsPage.previous controls) st)
      = Z.max 1 (ReviewsPage.page st - 1) /\
      ReviewsPage.page (ReviewsPage.onClick (ReviewsPage.next controls) st)
      = ReviewsPage.page st + 1 /\
      ReviewsPage.page st
      <= ReviewsPage.page (ReviewsPage.click (ReviewsPage.next controls) st)) /\
  (forall events : list ReviewsPage.Event,
      1 <= ReviewsPage.page (ReviewsPage.run events ReviewsPage.initial)).
Proof.
  split; [reflexivity | ].
  split; [intros st value; reflexivity | ].
  split; [intros st value; reflexivity | ].
  split; [intros st value; reflexivity | ].
  split.
  - intros st d controls. unfold ReviewsPage.pagination.
    destruct d as [l | ]; [ | discriminate].
    destruct (0 <? List.length l)%nat; [ | discriminate].
    intros H. inversion H; subst; clear H. simpl.
    split; [reflexivity | split; [reflexivity | split; [reflexivity | ]]].
    unfold ReviewsPage.click; simpl.
    destruct (List.length l <? 20)%nat; simpl; lia.
  - intros events. apply run_keeps_page_positive. simpl. lia.
Qed.

Lemma page_number_at_least_one_witness :
  exists controls,
    ReviewsPage.pagination ReviewsPage.initial (Some [Sample.review "success"])
    = Some controls /\
    ReviewsPage.disabled (ReviewsPage.previous controls) = true /\
    ReviewsPage.page
      (ReviewsPage.onClick (ReviewsPage.previous controls) ReviewsPage.initial)
    = 1 /\
    ReviewsPage.page
      (ReviewsPage.onClick (ReviewsPage.next controls) ReviewsPage.initial)
    = 2.
Proof.
  eexists. split; [reflexivity | ].
  destruct page_number_at_least_one as (_ & _ & _ & _ & Hp & _).
  destruct (Hp ReviewsPage.initial (Some [Sample.review "success"]) _ eq_refl)
    as (Hd & Hprev & Hnext & _).
  exact (conj Hd (conj Hprev Hnext)).
Defined.

(** ** C10 *)

Lemma step_keeps_idle_without_draft (st : SettingsPage.State)
    (ev : SettingsPage.Event) :
  idle_without_draft st -> idle_without_draft (SettingsPage.step st ev).
Proof.
  unfold idle_without_draft. intros I.
  destruct (SettingsPage.settings st) as [s | ] eqn:E.
  - (* a draft, once there, stays *)
    clear I. intros H. exfalso. revert H.
    destruct ev as [s' | e | | | ]; simpl; rewrite ?E; try discriminate.
    + destruct (SettingsPage.saving st); [now rewrite E | ].
      unfold SettingsPage.handleSave. rewrite E. simpl. now rewrite E.
    + destruct (SettingsPage.inflight st); simpl; now rewrite E.
    + destruct (SettingsPage.inflight st); simpl; now rewrite E.
  - (* no draft: nothing has happened and nothing can *)
    destruct (I eq_refl) as (Hs & Hr & Hi & Ht). intros _.
    destruct ev as [s' | e | | | ]; simpl; rewrite ?E, ?Hi; simpl;
      repeat split; assumption.
Qed.

Lemma run_keeps_idle_without_draft (events : list SettingsPage.Event) :
  forall st : SettingsPage.State,
    idle_without_draft st -> idle_without_draft (SettingsPage.run events st).
Proof.
  induction events as [ | ev events IH]; intros st I; simpl.
  - exact I.
  - apply IH. now apply step_keeps_idle_without_draft.
Qed.

(** C10.  Saving while the draft is still null does nothing: [handleSave]
    returns the state as it is, so no [updateSettings] request is added;
    and in every state the page reaches with the draft still null,
    [saving] is false and no request was ever sent, before the call and
    after it. *)
Theorem save_without_draft_is_noop :
  (forall st : SettingsPage.State,
      SettingsPage.settings st = None ->
      SettingsPage.handleSave st = st) /\
  (forall events : list SettingsPage.Event,
      let st := SettingsPage.run events SettingsPage.initial in
      SettingsPage.settings st = None ->
      SettingsPage.saving st = false /\
      SettingsPage.saving (SettingsPage.handleSave st) = false /\
      SettingsPage.requests (SettingsPage.handleSave st) = [] /\
      SettingsPage.inflight (SettingsPage.handleSave st) = 0%nat).
Proof.
  assert (Hnoop : forall st, SettingsPage.settings st = None ->
                             SettingsPage.handleSave st = st).
  { intros st H. unfold SettingsPage.handleSave. now rewrite H. }
  split; [exact Hnoop | ].
  intros events st H.
  assert (I : idle_without_draft st).
  { apply run_keeps_idle_without_draft. intros _. repeat split. }
  destruct (I H) as (Hs & Hr & Hi & _).
  rewrite (Hnoop st H). repeat split; assumption.
Qed.

Lemma save_without_draft_is_noop_witness :
  SettingsPage.handleSave SettingsPage.initial = SettingsPage.initial /\
  (let st :=
     SettingsPage.run
       [SettingsPage.ClickSave;
        SettingsPage.Change (SettingsPage.edit_enable_caching true);
        SettingsPage.MutationFailed]
       SettingsPage.initial in
   SettingsPage.saving st = false /\
   SettingsPage.saving (SettingsPage.handleSave st) = false /\
   SettingsPage.requests (SettingsPage.handleSave st) = [] /\
   SettingsPage.inflight (SettingsPage.handleSave st) = 0%nat).
Proof.
  destruct save_without_draft_is_noop as (Hnoop & Hreach).
  split.
  - exact (Hnoop SettingsPage.initial eq_refl).
  - exact (Hreach
             [SettingsPage.ClickSave;
              SettingsPage.Change (SettingsPage.edit_enable_caching true);
              SettingsPage.MutationFailed]
             eq_refl).
Defined.


(* ================================================================== *)
(** * Further properties of the client and the pages *)

(** ** The query string loses nothing *)

Lemma urldecode_urlencode (s : string) :
  FormUrlencoded.urldecode (Js.urlencode s) = s.
Proof.
  induction s as [ | c s IH]; [reflexivity | ].
  destruct c as [[] [] [] [] [] [] [] []]; simpl; rewrite IH; reflexivity.
Qed.

Lemma urlencode_injective (a b : string) :
  Js.urlencode a = Js.urlencode b -> a = b.
Proof.
  intros H. rewrite <- (urldecode_urlencode a), <- (urldecode_urlencode b).
  now rewrite H.
Qed.

Lemma urlencode_no_separator (s : string) :
  FormUrlencoded.no_separator (Js.urlencode s) = true.
Proof.
  induction s as [ | c s IH]; [reflexivity | ].
  destruct c as [[] [] [] [] [] [] [] []]; simpl; rewrite IH; reflexivity.
Qed.

(** Two strings free of separators, each followed by a separator, agree
    piecewise when the wholes agree. *)
Lemma split_at_separator (u v : string) (d e : ascii) (x y : string) :
  FormUrlencoded.no_separator u = true ->
  FormUrlencoded.no_separator v = true ->
  FormUrlencoded.separator d = true ->
  FormUrlencoded.separator e = true ->
  u ++ String d x = v ++ String e y ->
  u = v /\ d = e /\ x = y.
Proof.
  revert v. induction u as [ | a u IH]; intros [ | b v] Hu Hv Hd He H;
    simpl in *.
  - inversion H; subst. repeat split.
  - inversion H; subst. apply andb_prop in Hv. destruct Hv as [Hb _].
    rewrite Hd in Hb. discriminate.
  - inversion H; subst. apply andb_prop in Hu. destruct Hu as [Ha _].
    rewrite He in Ha. discriminate.
  - inversion H; subst.
    apply andb_prop in Hu. destruct Hu as [_ Hu].
    apply andb_prop in Hv. destruct Hv as [_ Hv].
    destruct (IH v Hu Hv Hd He H2) as (-> & -> & ->). repeat split.
Qed.

(** A string free of separators is not one followed by a separator. *)
Lemma no_separator_end (u v : string) (e : ascii) (y : string) :
  FormUrlencoded.no_separator u = true ->
  FormUrlencoded.separator e = true ->
  u <> v ++ String e y.
Proof.
  revert v. induction u as [ | a u IH]; intros [ | b v] Hu He H;
    simpl in *; try discriminate.
  - inversion H; subst. rewrite He in Hu. discriminate.
  - inversion H; subst. apply andb_prop in Hu. destruct Hu as [_ Hu].
    exact (IH v Hu He eq_refl).
Qed.

Lemma string_app_nil_r (s : string) : s ++ "" = s.
Proof. induction s as [ | c s IH]; simpl; [reflexivity | now rewrite IH]. Qed.

Lemma string_app_assoc (a b c : string) : (a ++ b) ++ c = a ++ (b ++ c).
Proof. induction a as [ | x a IH]; simpl; [reflexivity | now rewrite IH]. Qed.

Lemma string_app_inv_head (a x y : string) : a ++ x = a ++ y -> x = y.
Proof.
  induction a as [ | c a IH]; simpl; intros H; [exact H | ].
  inversion H. now apply IH.
Qed.

(** The serialisation of a non-empty list has a first pair and a rest. *)
Lemma toString_cons (k v : string) (rest : Js.URLSearchParams) :
  Js.URLSearchParams_toString ((k, v) :: rest)
  = Js.urlencode k ++ String "=" (Js.urlencode v ++
      match rest with
      | [] => ""
      | _ :: _ => String "&" (Js.URLSearchParams_toString rest)
      end).
Proof.
  destruct rest as [ | p rest]; simpl.
  - now rewrite string_app_nil_r.
  - reflexivity.
Qed.

Lemma toString_injective (ps : Js.URLSearchParams) :
  forall qs : Js.URLSearchParams,
    Js.URLSearchParams_toString ps = Js.URLSearchParams_toString qs ->
    ps = qs.
Proof.
  induction ps as [ | [k v] ps IH]; intros [ | [k' v'] qs] H.
  - reflexivity.
  - rewrite toString_cons in H. simpl in H.
    destruct (Js.urlencode k'); discriminate.
  - rewrite toString_cons in H. simpl in H.
    destruct (Js.urlencode k); discriminate.
  - rewrite !toString_cons in H.
    apply split_at_separator in H;
      try apply urlencode_no_separator; try reflexivity.
    destruct H as (Hk & _ & H).
    apply urlencode_injective in Hk. subst k'.
    destruct ps as [ | p ps], qs as [ | q qs].
    + rewrite !string_app_nil_r in H.
      apply urlencode_injective in H. now subst.
    + rewrite string_app_nil_r in H. exfalso.
      exact (no_separator_end _ _ "&"%char _ (urlencode_no_separator v)
               eq_refl H).
    + rewrite string_app_nil_r in H. exfalso. symmetry in H.
      exact (no_separator_end _ _ "&"%char _ (urlencode_no_separator v')
               eq_refl H).
    + apply split_at_separator in H;
        try apply urlencode_no_separator; try reflexivity.
      destruct H as (Hv & _ & H).
      apply urlencode_injective in Hv. subst v'.
      apply IH in H. now rewrite H.
Qed.

(** ** What [getReviews] sends *)

Lemma get_append (name k v : string) (ps : Js.URLSearchParams) :
  Js.get name (Js.append k v ps)
  = match Js.get name ps with
    | Some x => Some x
    | None => if (k =? name)%string then Some v else None
    end.
Proof.
  unfold Js.get, Js.append.
  induction ps as [ | [k0 v0] ps IH]; simpl.
  - destruct (k =? name)%string; reflexivity.
  - destruct (k0 =? name)%string; [reflexivity | exact IH].
Qed.

Lemma get_append_string (name k : string) (f : option string)
    (ps : Js.URLSearchParams) :
  Js.get name (Api.append_string k f ps)
  = match Js.get name ps with
    | Some x => Some x
    | None => if (k =? name)%string then sent_string f else None
    end.
Proof.
  unfold Api.append_string, sent_string.
  destruct f as [s | ]; [destruct (Js.string_truthy s) | ];
    rewrite ?get_append;
    destruct (Js.get name ps); try reflexivity;
    destruct (k =? name)%string; reflexivity.
Qed.

Lemma get_append_number (name k : string) (f : option Js.number)
    (ps : Js.URLSearchParams) :
  Js.get name (Api.append_number k f ps)
  = match Js.get name ps with
    | Some x => Some x
    | None => if (k =? name)%string then sent_number f else None
    end.
Proof.
  unfold Api.append_number, sent_number.
  destruct f as [n | ]; [destruct (Js.number_truthy n) | ];
    rewrite ?get_append;
    destruct (Js.get name ps); try reflexivity;
    destruct (k =? name)%string; reflexivity.
Qed.

Lemma getReviews_params_get (o : Api.ReviewsOptions) :
  let params := Api.getReviews_params (Some o) in
  Js.get "search" params = sent_string (Api.search o) /\
  Js.get "status" params = sent_string (Api.status o) /\
  Js.get "sort_by" params = sent_string (Api.sort_by o) /\
  Js.get "page" params = sent_number (Api.page o) /\
  Js.get "limit" params = sent_number (Api.limit o).
Proof.
  unfold Api.getReviews_params; cbv zeta.
  repeat split;
    rewrite ?get_append_number, ?get_append_string; simpl;
    destruct (sent_string (Api.search o)), (sent_string (Api.status o)),
      (sent_string (Api.sort_by o)), (sent_number (Api.page o)),
      (sent_number (Api.limit o)); reflexivity.
Qed.



Lemma getReviews_request_params (o1 o2 : option Api.ReviewsOptions) :
  Api.getReviews o1 = Api.getReviews o2 ->
  Api.getReviews_params o1 = Api.getReviews_params o2.
Proof.
  unfold Api.getReviews. intros H. inversion H as [H'].
  now apply toString_injective.
Qed.

(** X1.  The request of [getReviews], and of [exportReviews], determines
    the parameters that were appended: the query string written into the
    URL can be read back without loss, so no filter value (whatever
    characters it holds) can add, drop or alter a parameter. *)
Theorem request_determines_params :
  (forall o1 o2 : option Api.ReviewsOptions,
      Api.getReviews o1 = Api.getReviews o2 ->
      Api.getReviews_params o1 = Api.getReviews_params o2) /\
  (forall e1 e2 : Api.ExportOptions,
      Api.exportReviews e1 = Api.exportReviews e2 ->
      Api.exportReviews_params e1 = Api.exportReviews_params e2).
Proof.
  split.
  - exact getReviews_request_params.
  - intros e1 e2 H. unfold Api.exportReviews in H. inversion H as [H'].
    now apply toString_injective.
Qed.

Lemma request_determines_params_witness :
  Api.getReviews_params None
  = Api.getReviews_params (Some Sample.bare_options) /\
  Api.exportReviews_params (ReviewsPage.export_options Sample.state)
  = Api.exportReviews_params (ReviewsPage.export_options ReviewsPage.initial).
Proof.
  destruct request_determines_params as (Hg & He).
  split.
  - exact (Hg None (Some Sample.bare_options) eq_refl).
  - exact (He (ReviewsPage.export_options Sample.state)
              (ReviewsPage.export_options ReviewsPage.initial) eq_refl).
Defined.

Example search_text_with_separators :
  Api.getReviews
    (Some {| Api.search := Some "a&status=failure"; Api.status := None;
             Api.sort_by := None; Api.page := None; Api.limit := None |})
  = Api.GET "/reviews?search=a%26status%3Dfailure" [].
Proof. reflexivity. Qed.



Example reviews_request_exponent_page :
  Api.getReviews
    (Some {| Api.search := None; Api.status := None; Api.sort_by := None;
             Api.page := Some (Js.Finite false "1" "e+21");
             Api.limit := Some (Js.Finite false "2" ".5") |})
  = Api.GET "/reviews?page=1e%2B21&limit=2.5" [].
Proof. reflexivity. Qed.

(** X3.  A page or limit is left out exactly when it is unset, zero or
    NaN: a zero page is dropped like a missing one, while negative
    numbers and the infinities are sent. *)
Theorem getReviews_drops_falsy_numbers :
  forall (o : Api.ReviewsOptions) (n : Js.number),
    let params := Api.getReviews_params (Some o) in
    (Api.page o = Some n ->
     (Js.has "page" params = false <-> n = Js.Int 0 \/ n = Js.NaN)) /\
    (Api.limit o = Some n ->
     (Js.has "limit" params = false <-> n = Js.Int 0 \/ n = Js.NaN)).
Proof.
  intros o n params.
  destruct (getReviews_params_has o) as (_ & _ & _ & Hp & Hl).
  fold params in Hp, Hl.
  assert (Hn : Js.number_truthy n = false <-> n = Js.Int 0 \/ n = Js.NaN).
  { destruct n as [ | b | z | b c r]; simpl;
      [ | | | split; [discriminate | intros [H | H]; discriminate]].
    - split; [now right | reflexivity].
    - split; [discriminate | intros [H | H]; discriminate].
    - destruct (Z.eqb_spec z 0) as [-> | Hz]; simpl.
      + split; [now left | reflexivity].
      + split; [discriminate | intros [H | H]; [ | discriminate]].
        inversion H. contradiction. }
  split; intros E; [rewrite Hp | rewrite Hl]; rewrite E; exact Hn.
Qed.

Lemma getReviews_drops_falsy_numbers_witness :
  Js.has "page"
    (Api.getReviews_params
       (Some {| Api.search := None; Api.status := None; Api.sort_by := None;
                Api.page := Some (Js.Int 0); Api.limit := Some Js.NaN |}))
  = false /\
  Js.has "limit"
    (Api.getReviews_params
       (Some {| Api.search := None; Api.status := None; Api.sort_by := None;
                Api.page := Some (Js.Int 0); Api.limit := Some Js.NaN |}))
  = false.
Proof.
  split.
  - destruct (getReviews_drops_falsy_numbers
                {| Api.search := None; Api.status := None;
                   Api.sort_by := None; Api.page := Some (Js.Int 0);
                   Api.limit := Some Js.NaN |} (Js.Int 0)) as (H & _).
    apply (H eq_refl). now left.
  - destruct (getReviews_drops_falsy_numbers
                {| Api.search := None; Api.status := None;
                   Api.sort_by := None; Api.page := Some (Js.Int 0);
                   Api.limit := Some Js.NaN |} Js.NaN) as (_ & H).
    apply (H eq_refl). now right.
Defined.

(** ** The fetch key of the reviews page *)

Lemma Int_toString_injective (a b : Z) :
  Js.number_toString (Js.Int a) = Js.number_toString (Js.Int b) -> a = b.
Proof.
  simpl. intros H.
  assert (Hnil : forall z, Z.to_int z <> Decimal.Pos Decimal.Nil /\
                           Z.to_int z <> Decimal.Neg Decimal.Nil).
  { intros [ | p | p]; simpl; split; try discriminate;
      intros E; inversion E as [E'];
      exact (DecimalPos.Unsigned.to_uint_nonnil p E'). }
  apply (f_equal NilZero.int_of_string) in H.
  destruct (Hnil a) as (Ha1 & Ha2), (Hnil b) as (Hb1 & Hb2).
  rewrite !NilZero.isi in H by assumption.
  inversion H as [H'].
  apply (f_equal Z.of_int) in H'. now rewrite !DecimalZ.of_to in H'.
Qed.

Lemma queryKey_injective (st1 st2 : ReviewsPage.State) :
  ReviewsPage.queryKey st1 = ReviewsPage.queryKey st2 -> st1 = st2.
Proof.
  destruct st1 as [q1 f1 k1 p1], st2 as [q2 f2 k2 p2].
  unfold ReviewsPage.queryKey; simpl. intros H.
  inversion H as [[Hq Hf Hk Hp]]. subst.
  assert (f1 = f2) by (destruct f1, f2; simpl in Hf; congruence).
  assert (k1 = k2) by (destruct k1, k2; simpl in Hk; congruence).
  now subst.
Qed.

Lemma queryFn_injective (st1 st2 : ReviewsPage.State) :
  ReviewsPage.queryFn st1 = ReviewsPage.queryFn st2 -> st1 = st2.
Proof.
  unfold ReviewsPage.queryFn. intros H.
  apply getReviews_request_params in H.
  destruct (getReviews_params_get (ReviewsPage.query_options st1))
    as (Hs1 & Ht1 & Hb1 & Hp1 & _).
  destruct (getReviews_params_get (ReviewsPage.query_options st2))
    as (Hs2 & Ht2 & Hb2 & Hp2 & _).
  cbv zeta in *. rewrite H in Hs1, Ht1, Hb1, Hp1.
  rewrite Hs2 in Hs1. rewrite Ht2 in Ht1. rewrite Hb2 in Hb1.
  rewrite Hp2 in Hp1. clear H Hs2 Ht2 Hb2 Hp2.
  destruct st1 as [q1 f1 k1 p1], st2 as [q2 f2 k2 p2]. simpl in *.
  assert (q1 = q2).
  { destruct q1, q2; simpl in Hs1; congruence. }
  assert (f1 = f2).
  { destruct f1, f2; simpl in Ht1; congruence. }
  assert (k1 = k2).
  { destruct k1, k2; simpl in Hb1; congruence. }
  assert (p1 = p2).
  { destruct (Z.eqb_spec p1 0), (Z.eqb_spec p2 0); simpl in Hp1;
      try congruence.
    inversion Hp1 as [E]. now apply Int_toString_injective. }
  now subst.
Qed.

(** X4.  On the reviews page the request is a faithful image of the fetch
    key: two view states issue the same request exactly when their query
    keys are equal, which is exactly when search text, status filter,
    sort key and page number all agree. *)
Theorem request_follows_fetch_key :
  forall st1 st2 : ReviewsPage.State,
    (ReviewsPage.queryFn st1 = ReviewsPage.queryFn st2 <->
     ReviewsPage.queryKey st1 = ReviewsPage.queryKey st2) /\
    (ReviewsPage.queryFn st1 = ReviewsPage.queryFn st2 <-> st1 = st2).
Proof.
  intros st1 st2.
  assert (Hf : ReviewsPage.queryFn st1 = ReviewsPage.queryFn st2 <-> st1 = st2).
  { split; [apply queryFn_injective | now intros ->]. }
  split; [ | exact Hf].
  split.
  - intros H. apply Hf in H. now subst.
  - intros H. apply queryKey_injective in H. now subst.
Qed.

Lemma request_follows_fetch_key_witness :
  ReviewsPage.queryFn
    (ReviewsPage.run [ReviewsPage.Search "x"; ReviewsPage.Search ""]
       Sample.failure_filter)
  = ReviewsPage.queryFn Sample.failure_filter.
Proof.
  destruct (request_follows_fetch_key
              (ReviewsPage.run [ReviewsPage.Search "x"; ReviewsPage.Search ""]
                 Sample.failure_filter)
              Sample.failure_filter) as (H & _).
  apply H. reflexivity.
Defined.

(** ** Time ranges *)



(** ** Export *)

(** X6.  An export ends in exactly one toast.  When the call is rejected,
    or when the code that builds the download throws, nothing is
    downloaded and the toast is the error toast; otherwise the value the
    call resolved to is downloaded once as [reviews_<date>.csv] and the
    toast is the success toast.  Only the status filter goes into the
    export: search text, sort key and page number do not. *)
Theorem export_outcomes :
  forall (st : ReviewsPage.State) (today : string),
    (filter is_download
       (ReviewsPage.handleExport st today ReviewsPage.Rejected) = [] /\
     export_toasts (ReviewsPage.handleExport st today ReviewsPage.Rejected)
     = [Sonner.error "Failed to export reviews"]) /\
    (forall reviews : string,
        filter is_download
          (ReviewsPage.handleExport st today (ReviewsPage.DownloadThrew reviews))
        = [] /\
        export_toasts
          (ReviewsPage.handleExport st today (ReviewsPage.DownloadThrew reviews))
        = [Sonner.error "Failed to export reviews"]) /\
    (forall reviews : string,
        filter is_download
          (ReviewsPage.handleExport st today (ReviewsPage.Downloaded reviews))
        = [ReviewsPage.Download reviews ("reviews_" ++ today ++ ".csv")] /\
        export_toasts
          (ReviewsPage.handleExport st today (ReviewsPage.Downloaded reviews))
        = [Sonner.success "Reviews exported successfully"]) /\
    (forall (st' : ReviewsPage.State) (outcome : ReviewsPage.ExportOutcome),
        ReviewsPage.statusFilter st' = ReviewsPage.statusFilter st ->
        ReviewsPage.handleExport st' today outcome
        = ReviewsPage.handleExport st today outcome).
Proof.
  intros st today.
  split; [split; reflexivity | split; [ | split]].
  - intros reviews. split; reflexivity.
  - intros reviews. split; reflexivity.
  - intros st' outcome H.
    unfold ReviewsPage.handleExport, ReviewsPage.export_options.
    now rewrite H.
Qed.

Lemma export_outcomes_witness :
  ReviewsPage.handleExport
    (ReviewsPage.run [ReviewsPage.Search "widgets";
                      ReviewsPage.SortChange ReviewsPage.comments]
       Sample.failure_filter)
    "2024-05-01" (ReviewsPage.Downloaded "id,repo")
  = ReviewsPage.handleExport Sample.failure_filter "2024-05-01"
      (ReviewsPage.Downloaded "id,repo").
Proof.
  destruct (export_outcomes Sample.failure_filter "2024-05-01")
    as (_ & _ & _ & H).
  apply H. reflexivity.
Defined.

(** ** The reviews table *)

(** X7.  The table component never shows a table without rows and never
    shows one while loading: while loading it is the five-bar skeleton
    whatever reviews it was given, and a table has one row per review,
    in order, keyed by the review's id. *)
Theorem table_view_cases :
  (forall reviews : list Api.Review,
      ReviewsTable.render reviews (Some true) = ReviewsTable.Skeleton 5) /\
  (forall (reviews : list Api.Review) (loading : option bool)
          (rows : list ReviewsTable.Row),
      ReviewsTable.render reviews loading = ReviewsTable.Table rows ->
      loading <> Some true /\ rows <> [] /\
      List.length rows = List.length reviews /\
      map ReviewsTable.key rows = map Api.id reviews /\
      map ReviewsTable.action_href rows = map Api.pr_url reviews).
Proof.
  split; [reflexivity | ].
  intros reviews loading rows. unfold ReviewsTable.render.
  destruct loading as [[ | ] | ]; try discriminate;
    (destruct reviews as [ | r reviews]; [discriminate | ]);
    simpl; intros H; inversion H; subst; clear H;
    (split; [discriminate | split; [discriminate | ]]);
    simpl; rewrite ?length_map, ?map_map; repeat split.
Qed.

Lemma table_view_cases_witness :
  map ReviewsTable.key
    [ReviewsTable.row (Sample.review "success");
     ReviewsTable.row (Sample.review "failure")]
  = ["r-1"; "r-1"].
Proof.
  destruct table_view_cases as (_ & H).
  destruct (H [Sample.review "success"; Sample.review "failure"] None _
              eq_refl) as (_ & _ & _ & Hk & _).
  exact Hk.
Defined.



(** ** Metric cards *)

(** X9.  A metric card has a change line exactly when [change] is a
    non-empty string; the line is the arrow, a space and [change]
    unchanged; and a card whose [positive] is unset or false gets the
    unfavourable styling. *)
Theorem metric_card_change_line :
  forall p : MetricCard.Props,
    (MetricCard.card_indicator (MetricCard.render p) = None <->
     MetricCard.change p = None \/ MetricCard.change p = Some "") /\
    (forall c : string,
        MetricCard.change p = Some c -> c <> "" ->
        MetricCard.card_indicator (MetricCard.render p)
        = trend_line (MetricCard.truthy (MetricCard.positive p)) c) /\
    (MetricCard.positive p <> Some true ->
     MetricCard.truthy (MetricCard.positive p) = false).
Proof.
  intros p. unfold MetricCard.render; simpl.
  split; [ | split].
  - destruct (MetricCard.change p) as [[ | a c] | ]; simpl; split;
      try discriminate; try reflexivity; try (now left); try (now right).
    + intros [H | H]; discriminate.
  - intros c E Hne. rewrite E.
    apply string_truthy_nonempty in Hne. rewrite Hne. reflexivity.
  - destruct (MetricCard.positive p) as [[ | ] | ]; try reflexivity.
    intros H. now elim H.
Qed.

Lemma metric_card_change_line_witness :
  MetricCard.card_indicator
    (MetricCard.render
       {| MetricCard.title := "Queue"; MetricCard.value := "7";
          MetricCard.change := Some "2%"; MetricCard.positive := None;
          MetricCard.icon := Lucide.Clock; MetricCard.description := None |})
  = Some {| MetricCard.className := "text-xs font-medium mt-2 text-danger-600";
            MetricCard.text := "↓ 2%" |}.
Proof.
  destruct (metric_card_change_line
              {| MetricCard.title := "Queue"; MetricCard.value := "7";
                 MetricCard.change := Some "2%"; MetricCard.positive := None;
                 MetricCard.icon := Lucide.Clock;
                 MetricCard.description := None |}) as (_ & H & _).
  apply (H "2%" eq_refl). discriminate.
Defined.






(** ** The dashboard's empty states *)

(** X12.  On the dashboard the [No reviews yet] panel is shown exactly
    when the recent-reviews table shows its own [No reviews found]
    placeholder, so the two empty states always appear together (also
    when the reviews fetch has failed with nothing cached); while the
    reviews are loading neither is shown. *)
Theorem dashboard_empty_states :
  forall (metrics : Query.Result Api.Metrics)
         (reviews : Query.Result (list Api.Review)),
  exists content,
    Dashboard.render metrics reviews = Screen.Page content /\
    (Dashboard.no_reviews_yet content = true <->
     Dashboard.recent_reviews content
     = ReviewsTable.Placeholder "No reviews found") /\
    (Query.isLoading reviews = true ->
     Dashboard.no_reviews_yet content = false /\
     Dashboard.recent_reviews content = ReviewsTable.Skeleton 5) /\
    (Query.isLoading reviews = false -> Query.data reviews = None ->
     Dashboard.no_reviews_yet content = true).
Proof.
  intros metrics reviews. eexists. split; [reflexivity | ]. simpl.
  unfold ReviewsTable.render, Dashboard.reviews_or_empty.
  destruct (Query.isLoading reviews), (Query.data reviews) as [[ | r l] | ];
    simpl; repeat split; intros; try discriminate; try reflexivity.
Qed.

Lemma dashboard_empty_states_witness :
  exists content,
    Dashboard.render ErrorPolicy.failed ErrorPolicy.failed
    = Screen.Page content /\
    Dashboard.no_reviews_yet content = true /\
    Dashboard.recent_reviews content
    = ReviewsTable.Placeholder "No reviews found".
Proof.
  destruct (dashboard_empty_states ErrorPolicy.failed ErrorPolicy.failed)
    as (content & Hr & Hiff & _ & Hfail).
  exists content. split; [exact Hr | ].
  pose proof (Hfail eq_refl eq_refl) as Hy.
  split; [exact Hy | ]. apply Hiff. exact Hy.
Defined.

(** ** Pagination of the reviews page *)

(** X13.  Without rows there is no pagination: when the data is missing
    or empty the block is not rendered, so neither Previous nor Next can
    change anything; from a page that came back empty only a filter
    change moves the page number (to 1). *)
Theorem pagination_hidden_without_rows :
  forall (st : ReviewsPage.State) (reviewsData : option (list Api.Review)),
    reviewsData = None \/ reviewsData = Some [] ->
    ReviewsPage.pagination st reviewsData = None /\
    ReviewsPage.step st (ReviewsPage.ClickPrevious reviewsData) = st /\
    ReviewsPage.step st (ReviewsPage.ClickNext reviewsData) = st.
Proof.
  intros st d [-> | ->]; repeat split.
Qed.

Lemma pagination_hidden_without_rows_witness :
  ReviewsPage.step Sample.state (ReviewsPage.ClickPrevious (Some []))
  = Sample.state.
Proof.
  destruct (pagination_hidden_without_rows Sample.state (Some [])
              (or_intror eq_refl)) as (_ & H & _).
  exact H.
Defined.

(** The pagination controls, click by click. *)
Lemma pagination_click_cases :
  forall (st : ReviewsPage.State) (rows : list Api.Review),
    ((List.length rows < 20)%nat ->
     ReviewsPage.step st (ReviewsPage.ClickNext (Some rows)) = st) /\
    ((20 <= List.length rows)%nat ->
     ReviewsPage.page (ReviewsPage.step st (ReviewsPage.ClickNext (Some rows)))
     = ReviewsPage.page st + 1) /\
    (ReviewsPage.page st = 1 ->
     ReviewsPage.step st (ReviewsPage.ClickPrevious (Some rows)) = st) /\
    (1 < ReviewsPage.page st -> rows <> [] ->
     ReviewsPage.page
       (ReviewsPage.step st (ReviewsPage.ClickPrevious (Some rows)))
     = ReviewsPage.page st - 1) /\
    (forall e,
        e = ReviewsPage.ClickNext (Some rows) \/
        e = ReviewsPage.ClickPrevious (Some rows) ->
        ReviewsPage.searchQuery (ReviewsPage.step st e)
        = ReviewsPage.searchQuery st /\
        ReviewsPage.statusFilter (ReviewsPage.step st e)
        = ReviewsPage.statusFilter st /\
        ReviewsPage.sortBy (ReviewsPage.step st e) = ReviewsPage.sortBy st).
Proof.
  intros st rows.
  split; [ | split; [ | split; [ | split]]].
  - intros H. simpl. unfold ReviewsPage.pagination.
    destruct (0 <? List.length rows)%nat; [ | reflexivity].
    unfold ReviewsPage.click; simpl.
    apply Nat.ltb_lt in H. now rewrite H.
  - intros H. simpl. unfold ReviewsPage.pagination.
    assert (H0 : (0 <? List.length rows)%nat = true)
      by (apply Nat.ltb_lt; lia).
    assert (H20 : (List.length rows <? 20)%nat = false)
      by (apply Nat.ltb_ge; lia).
    rewrite H0. unfold ReviewsPage.click; simpl. now rewrite H20.
  - intros H. simpl. unfold ReviewsPage.pagination.
    destruct (0 <? List.length rows)%nat; [ | reflexivity].
    unfold ReviewsPage.click; simpl. now rewrite H.
  - intros Hp Hne. simpl. unfold ReviewsPage.pagination.
    destruct rows as [ | r rows]; [now elim Hne | ]. simpl.
    unfold ReviewsPage.click; simpl.
    destruct (Z.eqb_spec (ReviewsPage.page st) 1); simpl; lia.
  - intros e [-> | ->]; simpl; unfold ReviewsPage.pagination;
      destruct (0 <? List.length rows)%nat; try (repeat split; fail);
      unfold ReviewsPage.click; simpl.
    + destruct (List.length rows <? 20)%nat; repeat split.
    + destruct (ReviewsPage.page st =? 1); repeat split.
Qed.

(** X14.  What a click on a pagination control does, case by case: Next
    does nothing on a page of fewer than 20 rows and otherwise adds one;
    Previous does nothing on page 1 and otherwise, from a page above 1,
    subtracts one; neither touches search text, status filter or sort
    key. *)
Theorem pagination_clicks :
  forall (st : ReviewsPage.State) (rows : list Api.Review),
    ((List.length rows < 20)%nat ->
     ReviewsPage.step st (ReviewsPage.ClickNext (Some rows)) = st) /\
    ((20 <= List.length rows)%nat ->
     ReviewsPage.page (ReviewsPage.step st (ReviewsPage.ClickNext (Some rows)))
     = ReviewsPage.page st + 1) /\
    (ReviewsPage.page st = 1 ->
     ReviewsPage.step st (ReviewsPage.ClickPrevious (Some rows)) = st) /\
    (1 < ReviewsPage.page st -> rows <> [] ->
     ReviewsPage.page
       (ReviewsPage.step st (ReviewsPage.ClickPrevious (Some rows)))
     = ReviewsPage.page st - 1) /\
    (forall e,
        e = ReviewsPage.ClickNext (Some rows) \/
        e = ReviewsPage.ClickPrevious (Some rows) ->
        ReviewsPage.searchQuery (ReviewsPage.step st e)
        = ReviewsPage.searchQuery st /\
        ReviewsPage.statusFilter (ReviewsPage.step st e)
        = ReviewsPage.statusFilter st /\
        ReviewsPage.sortBy (ReviewsPage.step st e) = ReviewsPage.sortBy st).
Proof.
  exact pagination_click_cases.
Qed.

Lemma pagination_clicks_witness :
  ReviewsPage.page
    (ReviewsPage.step Sample.state
       (ReviewsPage.ClickNext (Some (repeat (Sample.review "success") 20))))
  = 4 /\
  ReviewsPage.page
    (ReviewsPage.step Sample.state
       (ReviewsPage.ClickPrevious
          (Some (repeat (Sample.review "success") 20))))
  = 2 /\
  ReviewsPage.step ReviewsPage.initial
    (ReviewsPage.ClickPrevious (Some (repeat (Sample.review "success") 20)))
  = ReviewsPage.initial /\
  ReviewsPage.step Sample.state
    (ReviewsPage.ClickNext (Some [Sample.review "success"]))
  = Sample.state.
Proof.
  destruct (pagination_clicks Sample.state
              (repeat (Sample.review "success") 20))
    as (_ & Hnext & _ & Hprev & _).
  destruct (pagination_clicks ReviewsPage.initial
              (repeat (Sample.review "success") 20))
    as (_ & _ & Hfirst & _).
  destruct (pagination_clicks Sample.state [Sample.review "success"])
    as (Hshort & _).
  split; [ | split; [ | split]].
  - apply Hnext. simpl. lia.
  - apply Hprev; [simpl; lia | discriminate].
  - apply Hfirst. reflexivity.
  - apply Hshort. simpl. lia.
Defined.

(** X15.  In every state the page reaches, going to the next page and
    then back returns to the same state: Next on a full page followed by
    Previous (on any non-empty page) undoes itself. *)
Theorem next_then_previous :
  forall (events : list ReviewsPage.Event) (full shown : list Api.Review),
    let st := ReviewsPage.run events ReviewsPage.initial in
    (20 <= List.length full)%nat -> shown <> [] ->
    ReviewsPage.step
      (ReviewsPage.step st (ReviewsPage.ClickNext (Some full)))
      (ReviewsPage.ClickPrevious (Some shown))
    = st.
Proof.
  intros events full shown st Hfull Hshown.
  assert (Hpos : 1 <= ReviewsPage.page st).
  { subst st. apply run_keeps_page_positive. simpl. lia. }
  destruct (pagination_click_cases st full) as (_ & Hnext & _).
  specialize (Hnext Hfull).
  destruct (pagination_click_cases st full) as (_ & _ & _ & _ & Hframe).
  destruct (Hframe _ (or_introl eq_refl)) as (Hq & Hf & Hk).
  set (st1 := ReviewsPage.step st (ReviewsPage.ClickNext (Some full))) in *.
  destruct (pagination_click_cases st1 shown) as (_ & _ & _ & Hprev & Hframe1).
  destruct (Hframe1 _ (or_intror eq_refl)) as (Hq1 & Hf1 & Hk1).
  assert (Hp : ReviewsPage.page
                 (ReviewsPage.step st1 (ReviewsPage.ClickPrevious (Some shown)))
               = ReviewsPage.page st).
  { rewrite Hprev; [lia | lia | exact Hshown]. }
  destruct (ReviewsPage.step st1 (ReviewsPage.ClickPrevious (Some shown)))
    as [q f k p].
  destruct st as [q0 f0 k0 p0]. simpl in *. congruence.
Qed.

Lemma next_then_previous_witness :
  ReviewsPage.step
    (ReviewsPage.step Sample.failure_filter
       (ReviewsPage.ClickNext (Some (repeat (Sample.review "failure") 20))))
    (ReviewsPage.ClickPrevious (Some [Sample.review "failure"]))
  = Sample.failure_filter.
Proof.
  apply (next_then_previous
           [ReviewsPage.SortChange ReviewsPage.latency;
            ReviewsPage.StatusChange ReviewsPage.failure]
           (repeat (Sample.review "failure") 20)
           [Sample.review "failure"]).
  - simpl. lia.
  - discriminate.
Defined.

(** ** The settings page over any sequence of events *)

Lemma step_keeps_settings_accounting (st : SettingsPage.State)
    (ev : SettingsPage.Event) :
  settings_accounting st -> settings_accounting (SettingsPage.step st ev).
Proof.
  unfold settings_accounting. intros (Hi & Hl & Hr).
  destruct ev as [s | e | | | ]; simpl.
  - repeat split; assumption.
  - destruct (SettingsPage.settings st); repeat split; assumption.
  - destruct (SettingsPage.settings st) as [s | ] eqn:E;
      [ | repeat split; assumption].
    destruct (SettingsPage.saving st) eqn:Es; rewrite ?Es in Hi;
      [rewrite Es; repeat split; assumption | ].
    unfold SettingsPage.handleSave. rewrite E. simpl.
    rewrite Hi. split; [reflexivity | ].
    rewrite length_app, forallb_app, Hl, Hr, Hi. simpl.
    split; [lia | reflexivity].
  - destruct (SettingsPage.inflight st) as [ | n] eqn:E;
      [rewrite E; repeat split; assumption | ].
    simpl. rewrite E. destruct (SettingsPage.saving st); [ | discriminate].
    inversion Hi; subst. rewrite length_app. simpl.
    split; [reflexivity | split; [lia | assumption]].
  - destruct (SettingsPage.inflight st) as [ | n] eqn:E;
      [rewrite E; repeat split; assumption | ].
    simpl. rewrite E. destruct (SettingsPage.saving st); [ | discriminate].
    inversion Hi; subst. rewrite length_app. simpl.
    split; [reflexivity | split; [lia | assumption]].
Qed.

Lemma run_keeps_settings_accounting (events : list SettingsPage.Event) :
  forall st : SettingsPage.State,
    settings_accounting st ->
    settings_accounting (SettingsPage.run events st).
Proof.
  induction events as [ | ev events IH]; intros st H; simpl.
  - exact H.
  - apply IH. now apply step_keeps_settings_accounting.
Qed.

(** X16.  At most one settings update is ever outstanding: in every state
    the page reaches, [saving] is true exactly when one update is in
    flight, never more, and the save button of the form is disabled
    exactly then. *)
Theorem one_update_in_flight :
  forall (events : list SettingsPage.Event) (query : Query.Result Api.Settings),
    let st := SettingsPage.run events SettingsPage.initial in
    (SettingsPage.inflight st <= 1)%nat /\
    (SettingsPage.saving st = true <-> SettingsPage.inflight st = 1%nat) /\
    (forall draft label disabled,
        SettingsPage.render st query
        = Screen.Page (SettingsPage.Form draft label disabled) ->
        (disabled = true <-> SettingsPage.inflight st = 1%nat) /\
        SettingsPage.step st SettingsPage.ClickSave
        = (if disabled then st else SettingsPage.handleSave st)).
Proof.
  intros events query st.
  assert (A : settings_accounting st).
  { apply run_keeps_settings_accounting. repeat split. }
  destruct A as (Hi & _ & _).
  assert (Hiff : SettingsPage.saving st = true <->
                 SettingsPage.inflight st = 1%nat).
  { rewrite Hi. destruct (SettingsPage.saving st); split; congruence. }
  split; [ | split; [exact Hiff | ]].
  - rewrite Hi. destruct (SettingsPage.saving st); lia.
  - intros draft label disabled. unfold SettingsPage.render.
    destruct (Query.error query); [discriminate | ].
    destruct (Query.isLoading query); [discriminate | ].
    simpl. destruct (SettingsPage.settings st) as [s | ]; [ | discriminate].
    intros H. inversion H; subst. split; [exact Hiff | reflexivity].
Qed.

Lemma one_update_in_flight_witness :
  SettingsPage.step
    (SettingsPage.run [SettingsPage.ClickSave] Sample.loaded)
    SettingsPage.ClickSave
  = SettingsPage.run [SettingsPage.ClickSave] Sample.loaded.
Proof.
  destruct (one_update_in_flight
              [SettingsPage.Loaded Sample.draft; SettingsPage.ClickSave]
              {| Query.data := Some Sample.draft; Query.isLoading := false;
                 Query.error := false |}) as (_ & _ & H).
  destruct (H Sample.draft "Saving..." true eq_refl) as (_ & Hc).
  exact Hc.
Defined.

(** X17.  Every request the settings page sends through [saveMutation]
    is a PUT of [/settings], and each one is answered by exactly one
    toast: in every state the page reaches, the number of updates sent
    is the number of toasts shown plus the number of updates still
    outstanding.  (The page's other request, the GET of [/settings], is
    the one of its query.) *)
Theorem every_update_gets_one_toast :
  forall events : list SettingsPage.Event,
    let st := SettingsPage.run events SettingsPage.initial in
    List.length (SettingsPage.requests st)
    = (List.length (SettingsPage.toasts st) + SettingsPage.inflight st)%nat /\
    (forall r, In r (SettingsPage.requests st) ->
               exists body, r = Api.PUT "/settings" body) /\
    SettingsPage.queryFn = Api.GET "/settings" [].
Proof.
  intros events st.
  assert (A : settings_accounting st).
  { apply run_keeps_settings_accounting. repeat split. }
  destruct A as (_ & Hl & Hr).
  split; [exact Hl | split; [ | reflexivity]].
  intros r Hin. rewrite forallb_forall in Hr. specialize (Hr r Hin).
  destruct r as [url ps | url body]; simpl in Hr; [discriminate | ].
  apply String.eqb_eq in Hr. subst. now exists body.
Qed.

Lemma every_update_gets_one_toast_witness :
  let st :=
    SettingsPage.run
      [SettingsPage.Loaded Sample.draft; SettingsPage.ClickSave;
       SettingsPage.MutationSucceeded; SettingsPage.ClickSave]
      SettingsPage.initial in
  List.length (SettingsPage.requests st)
  = (List.length (SettingsPage.toasts st) + SettingsPage.inflight st)%nat /\
  exists body, Api.PUT "/settings" Sample.draft = Api.PUT "/settings" body.
Proof.
  destruct (every_update_gets_one_toast
              [SettingsPage.Loaded Sample.draft; SettingsPage.ClickSave;
               SettingsPage.MutationSucceeded; SettingsPage.ClickSave])
    as (Hl & H & _).
  split; [exact Hl | ].
  apply H. simpl. now left.
Defined.

(** ** The draft *)

Lemma step_keeps_draft (st : SettingsPage.State) (ev : SettingsPage.Event) :
  writes_draft ev = false ->
  SettingsPage.settings (SettingsPage.step st ev) = SettingsPage.settings st.
Proof.
  destruct ev as [s | e | | | ]; simpl; try discriminate; intros _.
  - destruct (SettingsPage.settings st) as [s | ] eqn:E; [ | exact E].
    destruct (SettingsPage.saving st); [exact E | ].
    unfold SettingsPage.handleSave. now rewrite E.
  - destruct (SettingsPage.inflight st); reflexivity.
  - destruct (SettingsPage.inflight st); reflexivity.
Qed.

Lemma step_draft_stays (st : SettingsPage.State) (ev : SettingsPage.Event) :
  SettingsPage.settings st <> None ->
  SettingsPage.settings (SettingsPage.step st ev) <> None.
Proof.
  intros H. destruct (writes_draft ev) eqn:W.
  - destruct ev as [s | e | | | ]; simpl in *; try discriminate.
    destruct (SettingsPage.settings st); [discriminate | now elim H].
  - now rewrite step_keeps_draft.
Qed.

(** X18.  The draft is written only by the arrival of fetched settings
    and by the form controls: a save, its success and its failure leave
    it as it is (the response of a successful update is not copied into
    it); and once a draft is there it never goes back to null. *)
Theorem draft_persistence :
  forall (events : list SettingsPage.Event) (st : SettingsPage.State),
    (forallb (fun ev => negb (writes_draft ev)) events = true ->
     SettingsPage.settings (SettingsPage.run events st)
     = SettingsPage.settings st) /\
    (SettingsPage.settings st <> None ->
     SettingsPage.settings (SettingsPage.run events st) <> None).
Proof.
  induction events as [ | ev events IH]; intros st; simpl.
  - split; [reflexivity | exact (fun H => H)].
  - destruct (IH (SettingsPage.step st ev)) as (IH1 & IH2). split.
    + intros H. apply andb_prop in H. destruct H as (Hev & Hrest).
      rewrite (IH1 Hrest). apply step_keeps_draft.
      now destruct (writes_draft ev).
    + intros H. apply IH2. now apply step_draft_stays.
Qed.

Lemma draft_persistence_witness :
  SettingsPage.settings
    (SettingsPage.run
       [SettingsPage.ClickSave; SettingsPage.MutationSucceeded;
        SettingsPage.ClickSave; SettingsPage.MutationFailed]
       Sample.loaded)
  = Some Sample.draft /\
  SettingsPage.settings
    (SettingsPage.run
       [SettingsPage.Change (SettingsPage.edit_enable_caching false);
        SettingsPage.ClickSave]
       Sample.loaded)
  <> None.
Proof.
  split.
  - destruct (draft_persistence
                [SettingsPage.ClickSave; SettingsPage.MutationSucceeded;
                 SettingsPage.ClickSave; SettingsPage.MutationFailed]
                Sample.loaded) as (H & _).
    exact (H eq_refl).
  - destruct (draft_persistence
                [SettingsPage.Change (SettingsPage.edit_enable_caching false);
                 SettingsPage.ClickSave]
                Sample.loaded) as (_ & H).
    apply H. discriminate.
Defined.

(** X19.  A change made in the form while a save is outstanding is kept
    whether the save succeeds or fails, and the request that was sent
    carries the draft as it was when Save was clicked, not the later
    change. *)
Theorem edit_while_saving :
  forall (st : SettingsPage.State) (draft : Api.Settings)
         (e : SettingsPage.Edit) (outcome : SettingsPage.Event),
    SettingsPage.settings st = Some draft ->
    SettingsPage.saving st = false ->
    outcome = SettingsPage.MutationSucceeded \/
    outcome = SettingsPage.MutationFailed ->
    let st' :=
      SettingsPage.run [SettingsPage.ClickSave; SettingsPage.Change e; outcome]
        st in
    SettingsPage.settings st' = Some (SettingsPage.apply_edit e draft) /\
    SettingsPage.saving st' = false /\
    SettingsPage.requests st'
    = (SettingsPage.requests st ++ [Api.PUT "/settings" draft])%list.
Proof.
  intros st draft e outcome Hd Hs Ho st'. subst st'.
  unfold SettingsPage.run; simpl. rewrite Hd, Hs.
  unfold SettingsPage.handleSave. rewrite Hd. simpl. rewrite Hd. simpl.
  destruct Ho as [-> | ->]; simpl; repeat split.
Qed.

Lemma edit_while_saving_witness :
  let st' :=
    SettingsPage.run
      [SettingsPage.ClickSave;
       SettingsPage.Change (SettingsPage.edit_default_model "gemini-pro");
       SettingsPage.MutationSucceeded]
      Sample.loaded in
  SettingsPage.settings st'
  = Some (SettingsPage.apply_edit
            (SettingsPage.edit_default_model "gemini-pro") Sample.draft) /\
  SettingsPage.saving st' = false /\
  SettingsPage.requests st' = [Api.PUT "/settings" Sample.draft].
Proof.
  exact (edit_while_saving Sample.loaded Sample.draft
           (SettingsPage.edit_default_model "gemini-pro")
           SettingsPage.MutationSucceeded eq_refl eq_refl
           (or_introl eq_refl)).
Defined.

(** X20.  A form control rewrites its own field of the draft and no
    other: after the change the field holds the value of the control and
    every other field holds what it held; hence writing the same field
    twice keeps the last value, and writes to different fields can be
    made in either order. *)
Theorem edits_field_by_field :
  forall (e1 e2 : SettingsPage.Edit) (s : Api.Settings),
    field_value (edited_field e1) (SettingsPage.apply_edit e1 s)
    = written_value e1 /\
    (forall f : SettingsField,
        f <> edited_field e1 ->
        field_value f (SettingsPage.apply_edit e1 s) = field_value f s) /\
    (edited_field e1 = edited_field e2 ->
     SettingsPage.apply_edit e2 (SettingsPage.apply_edit e1 s)
     = SettingsPage.apply_edit e2 s) /\
    (edited_field e1 <> edited_field e2 ->
     SettingsPage.apply_edit e2 (SettingsPage.apply_edit e1 s)
     = SettingsPage.apply_edit e1 (SettingsPage.apply_edit e2 s)).
Proof.
  intros e1 e2 [m f l c p b r t].
  split; [destruct e1; reflexivity | split; [ | split]].
  - intros fld H. destruct e1, fld; simpl in *;
      try reflexivity; now elim H.
  - destruct e1, e2; simpl; intros H;
      try reflexivity; discriminate H.
  - destruct e1, e2; simpl; intros H;
      try reflexivity; now elim H.
Qed.

Lemma edits_field_by_field_witness :
  (forall f : SettingsField,
      f <> field_enable_caching ->
      field_value f
        (SettingsPage.apply_edit (SettingsPage.edit_enable_caching false)
           Sample.draft)
      = field_value f Sample.draft) /\
  SettingsPage.apply_edit (SettingsPage.edit_enable_caching false)
    (SettingsPage.apply_edit (SettingsPage.edit_enable_caching true)
       Sample.draft)
  = SettingsPage.apply_edit (SettingsPage.edit_enable_caching false)
      Sample.draft /\
  SettingsPage.apply_edit (SettingsPage.edit_rate_limit_per_hour (Js.Int 90))
    (SettingsPage.apply_edit (SettingsPage.edit_default_model "gemini-pro")
       Sample.draft)
  = SettingsPage.apply_edit (SettingsPage.edit_default_model "gemini-pro")
      (SettingsPage.apply_edit
         (SettingsPage.edit_rate_limit_per_hour (Js.Int 90)) Sample.draft).
Proof.
  split; [ | split].
  - destruct (edits_field_by_field (SettingsPage.edit_enable_caching false)
                (SettingsPage.edit_enable_caching false) Sample.draft)
      as (_ & H & _).
    exact H.
  - destruct (edits_field_by_field (SettingsPage.edit_enable_caching true)
                (SettingsPage.edit_enable_caching false) Sample.draft)
      as (_ & _ & H & _).
    exact (H eq_refl).
  - destruct (edits_field_by_field
                (SettingsPage.edit_default_model "gemini-pro")
                (SettingsPage.edit_rate_limit_per_hour (Js.Int 90))
                Sample.draft) as (_ & _ & _ & H).
    apply H. discriminate.
Defined.

(** ** The navigation of the layout *)

Lemma link_highlighted (pathname : string) (item : Layout.NavItem) :
  highlighted (Layout.link pathname item) = Layout.isActive pathname item.
Proof.
  unfold highlighted, Layout.link; simpl.
  destruct (Layout.isActive pathname item); reflexivity.
Qed.

Lemma filter_highlighted_links (pathname : string)
    (items : list Layout.NavItem) :
  filter highlighted (map (Layout.link pathname) items)
  = map (Layout.link pathname) (filter (Layout.isActive pathname) items).
Proof.
  induction items as [ | item items IH]; simpl; [reflexivity | ].
  rewrite link_highlighted.
  destruct (Layout.isActive pathname item); simpl; now rewrite IH.
Qed.

Lemma active_nav_items (pathname : string) :
  (List.length (filter (Layout.isActive pathname) Layout.navItems) <= 1)%nat /\
  (In pathname ["/"; "/reviews"; "/analytics"; "/settings"] <->
   List.length (filter (Layout.isActive pathname) Layout.navItems) = 1%nat).
Proof.
  unfold Layout.navItems, Layout.isActive. simpl.
  destruct (String.eqb_spec pathname "/") as [-> | H1]; simpl;
    [repeat split; auto; lia | ].
  destruct (String.eqb_spec pathname "/reviews") as [-> | H2]; simpl;
    [repeat split; auto; lia | ].
  destruct (String.eqb_spec pathname "/analytics") as [-> | H3]; simpl;
    [repeat split; auto; lia | ].
  destruct (String.eqb_spec pathname "/settings") as [-> | H4]; simpl;
    [repeat split; auto 6; lia | ].
  split; [lia | split; [ | discriminate]].
  intros [E | [E | [E | [E | []]]]]; symmetry in E; contradiction.
Qed.

(** X21.  The sidebar draws the four navigation links in order, each with
    the classes of the active entry exactly when the path is its own
    [href] and with the classes of an inactive entry otherwise; so for
    every path at most one link is highlighted, exactly one when the
    path is one of the four routes, and none for a path below a route
    (such as [/reviews/42]), since the comparison is on the whole path.
    Opening or closing the sidebar changes none of this. *)
Theorem one_active_nav_entry :
  forall (sidebarOpen : bool) (pathname : string),
    let shown := Layout.links (Layout.render sidebarOpen pathname) in
    map Layout.link_href shown
    = ["/"; "/reviews"; "/analytics"; "/settings"] /\
    (forall l, In l shown ->
       (highlighted l = true <-> pathname = Layout.link_href l) /\
       Layout.link_className l
       = "flex items-center gap-3 rounded-lg px-4 py-2.5 text-sm font-medium transition-colors "
         ++ (if highlighted l then "bg-primary-600 text-white"
             else "text-gray-300 hover:bg-gray-800")) /\
    (List.length (filter highlighted shown) <= 1)%nat /\
    (In pathname ["/"; "/reviews"; "/analytics"; "/settings"] <->
     List.length (filter highlighted shown) = 1%nat) /\
    filter highlighted (Layout.links (Layout.render sidebarOpen "/reviews/42"))
    = [].
Proof.
  intros sidebarOpen pathname shown. subst shown.
  unfold Layout.render; cbn [Layout.links].
  split; [reflexivity | split; [ | split; [ | split; [ | reflexivity]]]].
  - intros l Hin. apply in_map_iff in Hin. destruct Hin as (item & <- & _).
    rewrite link_highlighted. split.
    + unfold Layout.isActive. simpl. apply String.eqb_eq.
    + unfold Layout.link; simpl.
      destruct (Layout.isActive pathname item); reflexivity.
  - rewrite filter_highlighted_links, length_map.
    apply active_nav_items.
  - rewrite filter_highlighted_links, length_map.
    apply active_nav_items.
Qed.

Lemma one_active_nav_entry_witness :
  highlighted (Layout.link "/analytics"
                 {| Layout.href := "/analytics"; Layout.label := "Analytics";
                    Layout.icon := Layout.BarChart3 |}) = true /\
  List.length
    (filter highlighted (Layout.links (Layout.render true "/analytics")))
  = 1%nat.
Proof.
  destruct (one_active_nav_entry true "/analytics") as (_ & Hl & _ & Hone & _).
  split.
  - apply (Hl (Layout.link "/analytics"
                 {| Layout.href := "/analytics"; Layout.label := "Analytics";
                    Layout.icon := Layout.BarChart3 |})).
    + simpl. auto.
    + reflexivity.
  - apply Hone. simpl. auto.
Defined.

(** ** The requests of the reviews page over any sequence of events *)

(** X22.  In every state the reviews page reaches, its request carries
    the page number (never dropped as a falsy value, since it is at
    least 1), the sort key and the limit 20; the search text is sent
    exactly when it is not empty and the status exactly when the filter
    is not [all]. *)
Theorem reviews_request_always_paged :
  forall events : list ReviewsPage.Event,
    let st := ReviewsPage.run events ReviewsPage.initial in
    let params := Api.getReviews_params (Some (ReviewsPage.query_options st)) in
    Js.get "page" params
    = Some (Js.number_toString (Js.Int (ReviewsPage.page st))) /\
    Js.get "limit" params = Some "20" /\
    Js.get "sort_by" params
    = Some (ReviewsPage.SortKey_toString (ReviewsPage.sortBy st)) /\
    (Js.has "search" params = true <-> ReviewsPage.searchQuery st <> "") /\
    (Js.has "status" params = true <->
     ReviewsPage.statusFilter st <> ReviewsPage.all).
Proof.
  intros events st params.
  assert (Hpos : 1 <= ReviewsPage.page st).
  { subst st. apply run_keeps_page_positive. simpl. lia. }
  destruct (getReviews_params_get (ReviewsPage.query_options st))
    as (_ & _ & Hb & Hp & Hl).
  destruct (getReviews_params_has (ReviewsPage.query_options st))
    as (Hs & Ht & _).
  fold params in Hb, Hp, Hl, Hs, Ht.
  split; [ | split; [ | split; [ | split]]].
  - rewrite Hp. simpl.
    destruct (Z.eqb_spec (ReviewsPage.page st) 0); [lia | reflexivity].
  - rewrite Hl. reflexivity.
  - rewrite Hb. simpl.
    destruct (ReviewsPage.sortBy st); reflexivity.
  - rewrite Hs. simpl. apply string_truthy_nonempty.
  - rewrite Ht. simpl.
    destruct (ReviewsPage.statusFilter st); simpl; split; intros H;
      try discriminate; try reflexivity.
    now elim H.
Qed.

Lemma reviews_request_always_paged_witness :
  Js.has "status"
    (Api.getReviews_params
       (Some (ReviewsPage.query_options
                (ReviewsPage.run
                   [ReviewsPage.StatusChange ReviewsPage.success;
                    ReviewsPage.ClickNext
                      (Some (repeat (Sample.review "success") 20))]
                   ReviewsPage.initial))))
  = true.
Proof.
  destruct (reviews_request_always_paged
              [ReviewsPage.StatusChange ReviewsPage.success;
               ReviewsPage.ClickNext
                 (Some (repeat (Sample.review "success") 20))])
    as (_ & _ & _ & _ & H).
  apply H. discriminate.
Defined.
